(** * AltStore format converter: a shallow embedding and its properties

    The development follows [scripts/altstore_converter.py].  Python
    values read from JSON are the inductive [json]; a Python [dict] with
    string keys is a [gmap string json] (the order of the keys, which only
    shows in the serialized text, is not modelled); a raised exception is
    the [Raise] branch of [result].  A Python [str] is a sequence of code
    points; the alphabet of the model is [ascii], that is the code points
    0 to 255, and [str.lower], [str.strip] and the regular expression
    class [\w] are given as Python defines them on that range.

    Everything the program obtains from outside (the clock, the network,
    the archive on disk, the two command-line tools, [plistlib]) is a
    field of [world] or of the downloaded [ipa]; one record of a catalog
    consults each of them at most once, and a run over a catalog meets a
    [world] per record, its [timeline]. *)

From Stdlib Require Import ZArith String Ascii List DecimalString.
From Stdlib Require Import Floats.SpecFloat.
From stdpp Require Import gmap strings list fin_maps sorting.

Set Warnings "-register-all".

(** ** Values and exceptions *)

Inductive json : Type :=
| JNull
| JBool (b : bool)
| JInt (z : Z)
| JFloat (f : spec_float)
| JStr (s : string)
| JArr (l : list json)
| JObj (m : gmap string json).

Inductive exn : Type :=
| AttributeError
| TypeError
| KeyError
| IndexError.

Inductive result (A : Type) : Type :=
| Ok (a : A)
| Raise (e : exn).
Arguments Ok {A} a.
Arguments Raise {A} e.

Global Instance result_ret : MRet result := λ A a, Ok a.
Global Instance result_bind : MBind result := λ A B f m,
  match m with
  | Ok a => f a
  | Raise e => Raise e
  end.

(** [bool(v)] *)
Definition truthy (v : json) : bool :=
  match v with
  | JNull => false
  | JBool b => b
  | JInt z => negb (z =? 0)%Z
  | JFloat f =>
      match f with
      | S754_zero _ => false
      | _ => true
      end
  | JStr s =>
      match s with
      | EmptyString => false
      | String _ _ => true
      end
  | JArr l =>
      match l with
      | [] => false
      | _ :: _ => true
      end
  | JObj m => negb (bool_decide (m = ∅))
  end.

(** [d.get(k)], [d.get(k, default)], [d[k]] and [k in d] on a dict. *)
Definition py_get (d : gmap string json) (k : string) : json :=
  default JNull (d !! k).

Definition py_get_default (d : gmap string json) (k : string) (dflt : json) : json :=
  default dflt (d !! k).

Definition py_getitem (d : gmap string json) (k : string) : result json :=
  match d !! k with
  | Some v => Ok v
  | None => Raise KeyError
  end.

Definition has_key (d : gmap string json) (k : string) : bool :=
  bool_decide (is_Some (d !! k)).

(** A dict display [{k1: v1, ..., kn: vn}]: a later entry overwrites an
    earlier one with the same key. *)
Definition dict_literal {A : Type} (items : list (string * A)) : gmap string A :=
  foldl (λ m kv, <[kv.1 := kv.2]> m) ∅ items.

(** ** Strings *)

Fixpoint contains (needle s : string) : bool :=
  String.prefix needle s ||
  match s with
  | EmptyString => false
  | String _ s' => contains needle s'
  end.

(** [s.split(sep)[0]]: the part of [s] before the first occurrence of
    [sep], all of [s] when there is none. *)
Fixpoint split_head (sep s : string) : string :=
  if String.prefix sep s then EmptyString
  else match s with
       | EmptyString => EmptyString
       | String c s' => String c (split_head sep s')
       end.

Fixpoint str_map (f : ascii → ascii) (s : string) : string :=
  match s with
  | EmptyString => EmptyString
  | String c s' => String (f c) (str_map f s')
  end.

Definition in_range (lo hi : N) (c : ascii) : bool :=
  ((lo <=? N_of_ascii c) && (N_of_ascii c <=? hi))%N.

(** [str.lower] on one character: A-Z and the upper-case letters of the
    Latin-1 supplement (192-214, 216-222) move up by 32. *)
Definition chr_lower (c : ascii) : ascii :=
  if in_range 65 90 c || in_range 192 214 c || in_range 216 222 c
  then ascii_of_N (N_of_ascii c + 32)
  else c.

Definition lower (s : string) : string := str_map chr_lower s.

(** The class [\w] of [re] on a [str] pattern: alphanumeric characters
    ([str.isalnum]) and the underscore. *)
Definition is_word (c : ascii) : bool :=
  in_range 48 57 c || in_range 65 90 c || in_range 97 122 c
  || in_range 95 95 c
  || in_range 170 170 c || in_range 178 179 c || in_range 181 181 c
  || in_range 185 186 c || in_range 188 190 c
  || in_range 192 214 c || in_range 216 246 c || in_range 248 255 c.

(** The characters outside the class [[^\w\-_.]]. *)
Definition is_safe (c : ascii) : bool :=
  is_word c || Ascii.eqb c "-" || Ascii.eqb c "_" || Ascii.eqb c ".".

(** [re.sub(r'[^\w\-_.]', '_', s)] *)
Definition sanitize (s : string) : string :=
  str_map (λ c, if is_safe c then c else "_"%char) s.

(** [str.isspace] on one character. *)
Definition is_space (c : ascii) : bool :=
  in_range 9 13 c || in_range 28 32 c || in_range 133 133 c || in_range 160 160 c.

(** [bool(s.strip())] *)
Fixpoint nonblank (s : string) : bool :=
  match s with
  | EmptyString => false
  | String c s' => negb (is_space c) || nonblank s'
  end.

(** [os.path.basename] *)
Fixpoint basename (p : string) : string :=
  match p with
  | EmptyString => EmptyString
  | String c p' =>
      if contains "/" p' then basename p'
      else if Ascii.eqb c "/" then p' else p
  end.

(** [needle in v] for a string [needle]: substring test on a str,
    element test on a list, key test on a dict, [TypeError] otherwise. *)
Definition py_in (needle : string) (v : json) : result bool :=
  match v with
  | JStr s => Ok (contains needle s)
  | JArr l =>
      Ok (existsb (λ x, match x with
                        | JStr t => String.eqb t needle
                        | _ => false
                        end) l)
  | JObj m => Ok (has_key m needle)
  | _ => Raise TypeError
  end.

(** [v.lower()] and [v.split(sep)[0]]: only a str has the method. *)
Definition py_lower (v : json) : result string :=
  match v with
  | JStr s => Ok (lower s)
  | _ => Raise AttributeError
  end.

Definition py_split_head (v : json) (sep : string) : result string :=
  match v with
  | JStr s => Ok (split_head sep s)
  | _ => Raise AttributeError
  end.

(** [v[0]] *)
Definition py_first (v : json) : result json :=
  match v with
  | JArr (x :: _) => Ok x
  | JArr [] => Raise IndexError
  | JStr (String c _) => Ok (JStr (String c EmptyString))
  | JStr EmptyString => Raise IndexError
  | JObj _ => Raise KeyError
  | _ => Raise TypeError
  end.

(** [v.get(k)] on an arbitrary value: only a dict has the method. *)
Definition py_get_of (v : json) (k : string) : result json :=
  match v with
  | JObj d => Ok (py_get d k)
  | _ => Raise AttributeError
  end.

(** ** The clock *)

Record datetime := {
  year : nat;
  month : nat;
  day : nat;
  hour : nat;
  minute : nat;
  second : nat
}.

Definition decimal (n : nat) : string := NilZero.string_of_uint (Nat.to_uint n).

Fixpoint zeros (k : nat) : string :=
  match k with
  | O => EmptyString
  | S k' => String "0" (zeros k')
  end.

Definition zero_pad (width n : nat) : string :=
  zeros (width - String.length (decimal n)) +:+ decimal n.

(** [dt.strftime("%Y-%m-%dT%H:%M:%S-08:00")] *)
Definition strftime (dt : datetime) : string :=
  zero_pad 4 (year dt) +:+ "-" +:+ zero_pad 2 (month dt) +:+ "-" +:+ zero_pad 2 (day dt)
  +:+ "T" +:+ zero_pad 2 (hour dt) +:+ ":" +:+ zero_pad 2 (minute dt) +:+ ":"
  +:+ zero_pad 2 (second dt) +:+ "-08:00".


(** ** Property lists, the external tools and the downloaded archive *)

(** What [plistlib] returns: a str, a dict with its items in document
    order, or a value of another type (number, bool, array, data, date). *)
Inductive plist : Type :=
| PString (s : string)
| PDict (items : list (string * plist))
| POther.

(** [subprocess.run([...], capture_output=True, text=True, timeout=30)]:
    the timeout expires, another exception is raised (the tool is missing,
    the output does not decode), or the process exits. *)
Inductive tool_run : Type :=
| RunTimeout
| RunError
| RunExit (returncode : Z) (stdout : string).

(** Reading one entry of the archive as a property list:
    [zip_file.open] raises, [plistlib.load] raises, or a value comes out. *)
Inductive plist_read : Type :=
| ReadError
| ParseError
| Parsed (p : plist).

(** A downloaded file that [zipfile.is_zipfile] accepts, with what each
    step of the inspection meets. *)
Record ipa := {
  zip_opens : bool;                    (* zipfile.ZipFile(path, 'r') succeeds *)
  namelist : list string;              (* zip_file.namelist() *)
  read_plist : string → plist_read;    (* the entry at a path, as a plist *)
  bundle_extracts : bool;              (* the copy into the temporary directory succeeds *)
  codesign_run : tool_run;             (* codesign -d --entitlements :- <bundle> *)
  provision_on_disk : bool;            (* os.path.exists(mobileprovision_path) *)
  security_run : tool_run;             (* security cms -D -i <mobileprovision> *)
  tempdir_removed : bool               (* leaving the TemporaryDirectory block raises nothing *)
}.

Inductive downloaded : Type :=
| NotAZip
| IpaZip (z : ipa).

(** [requests.get], [raise_for_status] and the streaming of the body
    into the temporary file. *)
Inductive fetch_result : Type :=
| FetchTimeout
| FetchConnectionError
| FetchHTTPError
| FetchOtherError
| Fetched (f : downloaded).

Record world := {
  now : datetime;                          (* datetime.now() *)
  py_repr : json → string;                 (* str(v) of a value that is not a str *)
  http_get : json → fetch_result;
  plistlib_loads : string → option plist   (* None: plistlib.loads raises *)
}.

(** [f"{v}"] *)
Definition py_format (w : world) (v : json) : string :=
  match v with
  | JStr s => s
  | _ => py_repr w v
  end.

(** ** The static dictionaries *)

Definition permission_items : list (string * string) :=
  [ ("NSCameraUsageDescription", "Camera access");
    ("NSMicrophoneUsageDescription", "Microphone access");
    ("NSPhotoLibraryUsageDescription", "Photo Library access");
    ("NSPhotoLibraryAddUsageDescription", "Photo Library write access");
    ("NSLocationWhenInUseUsageDescription", "Location access when in use");
    ("NSLocationAlwaysAndWhenInUseUsageDescription", "Location access always");
    ("NSContactsUsageDescription", "Contacts access");
    ("NSCalendarsUsageDescription", "Calendar access");
    ("NSRemindersUsageDescription", "Reminders access");
    ("NSMotionUsageDescription", "Motion and fitness access");
    ("NSHealthUpdateUsageDescription", "Health data write access");
    ("NSHealthShareUsageDescription", "Health data read access");
    ("NSBluetoothAlwaysUsageDescription", "Bluetooth access");
    ("NSBluetoothPeripheralUsageDescription", "Bluetooth peripheral access");
    ("NSLocalNetworkUsageDescription", "Local network access");
    ("NSSpeechRecognitionUsageDescription", "Speech recognition access");
    ("NSFaceIDUsageDescription", "Face ID access");
    ("NSAppleMusicUsageDescription", "Apple Music access");
    ("NSMediaLibraryUsageDescription", "Media library access");
    ("NSNearbyInteractionUsageDescription", "Nearby interaction access") ].

Definition entitlement_items : list (string * string) :=
  [ ("com.apple.security.application-groups", "Application groups");
    ("com.apple.developer.siri", "Siri integration");
    ("com.apple.developer.healthkit", "HealthKit access");
    ("com.apple.developer.game-center", "Game Center");
    ("com.apple.developer.networking.networkextension", "Network extensions");
    ("com.apple.developer.networking.vpn.api", "VPN configuration");
    ("com.apple.developer.devicecheck.appattest-environment", "App Attest");
    ("com.apple.external-accessory.wireless-configuration", "Wireless accessory configuration");
    ("com.apple.developer.networking.wifi-info", "WiFi information access");
    ("com.apple.developer.networking.multipath", "Multipath networking");
    ("com.apple.developer.associated-domains", "Associated domains");
    ("com.apple.developer.default-data-protection", "Data protection");
    ("com.apple.developer.kernel.increased-memory-limit", "Increased memory limit");
    ("com.apple.developer.kernel.extended-virtual-addressing", "Extended virtual addressing");
    ("keychain-access-groups", "Keychain access groups");
    ("com.apple.developer.team-identifier", "Team identifier");
    ("get-task-allow", "Debuggable (get-task-allow)");
    ("com.apple.security.get-task-allow", "Debuggable (security variant)");
    ("com.apple.developer.icloud-container-identifiers", "iCloud containers");
    ("com.apple.developer.icloud-services", "iCloud services");
    ("com.apple.developer.ubiquity-kvstore-identifier", "iCloud key-value storage");
    ("com.apple.developer.ubiquity-container-identifiers", "iCloud document containers");
    ("com.apple.developer.networking.HotspotConfiguration", "Hotspot configuration");
    ("com.apple.developer.networking.slicing", "Network slicing");
    ("com.apple.developer.networking.custom-protocol", "Custom network protocols");
    ("com.apple.developer.networking.bluetooth", "Bluetooth networking");
    ("com.apple.developer.coremedia.hls.low-latency", "Low-latency HLS");
    ("com.apple.developer.avfoundation.multitasking-camera-access", "Background camera access");
    ("com.apple.developer.media-device-discovery-extension", "Media device discovery");
    ("com.apple.developer.carplay-audio", "CarPlay audio");
    ("com.apple.developer.carplay-communication", "CarPlay communication");
    ("com.apple.developer.carplay-messaging", "CarPlay messaging");
    ("com.apple.developer.carplay-navigation", "CarPlay navigation");
    ("com.apple.developer.carplay-parking", "CarPlay parking");
    ("com.apple.developer.carplay-quick-ordering", "CarPlay quick ordering");
    ("com.apple.developer.carplay-charging", "CarPlay EV charging");
    ("com.apple.developer.carplay-driving-task", "CarPlay driving task");
    ("com.apple.developer.usernotifications.communication", "Communication notifications");
    ("com.apple.developer.usernotifications.critical-alerts", "Critical alert notifications");
    ("com.apple.developer.usernotifications.time-sensitive", "Time sensitive notifications");
    ("aps-environment", "Push notifications environment");
    ("com.apple.developer.background-processing", "Background processing");
    ("com.apple.developer.background-modes", "Background modes");
    ("com.apple.security.exception.files.absolute-path.read-only", "Absolute path file read access");
    ("com.apple.security.exception.files.absolute-path.read-write", "Absolute path file write access");
    ("com.apple.security.exception.files.home-relative-path.read-only", "Home relative file read access");
    ("com.apple.security.exception.files.home-relative-path.read-write", "Home relative file write access");
    ("com.apple.security.exception.mach-lookup.global-name", "Mach service lookup");
    ("com.apple.security.exception.shared-preference.read-only", "Shared preference read access");
    ("com.apple.security.exception.shared-preference.read-write", "Shared preference write access");
    ("com.apple.security.temporary-exception.files.absolute-path.read-only", "Temporary file read access");
    ("com.apple.security.temporary-exception.files.absolute-path.read-write", "Temporary file write access");
    ("com.apple.developer.nfc.readersession.formats", "NFC reader session");
    ("com.apple.developer.nfc.readersession.iso7816.select-identifiers", "NFC ISO7816 identifiers");
    ("com.apple.developer.proximity-reader.payment.acceptance", "Tap to Pay acceptance");
    ("com.apple.developer.in-app-payments", "In-app payments");
    ("com.apple.developer.storekit.external-purchase-link", "External purchase links");
    ("com.apple.developer.weatherkit", "WeatherKit access");
    ("com.apple.developer.shared-with-you", "Shared with You");
    ("com.apple.developer.devicecheck.appattest-environment", "App Attest environment");
    ("com.apple.developer.applesignin", "Sign in with Apple");
    ("com.apple.developer.group-session", "SharePlay group sessions");
    ("com.apple.developer.ClassKit-environment", "ClassKit environment");
    ("com.apple.developer.maps", "MapKit");
    ("com.apple.developer.web-browser-engine.webcontent", "Web browser engine");
    ("com.apple.developer.web-browser-engine.networking", "Web browser networking");
    ("com.apple.developer.web-browser-engine.rendering", "Web browser rendering");
    ("com.apple.private.security.no-container", "No container restriction");
    ("com.apple.private.security.storage.AppDataContainers", "App data container access");
    ("com.apple.runningboard.primitiveattribute", "RunningBoard primitive attributes");
    ("com.apple.frontboard.launchapplications", "Launch applications");
    ("inter-app-audio", "Inter-App Audio");
    ("application-identifier", "Application identifier");
    ("beta-reports-active", "Beta reporting");
    ("platform-application", "Platform application");
    ("com.apple.private.skip-library-validation", "Skip library validation");
    ("com.apple.private.security.no-sandbox", "No sandbox restriction");
    ("com.apple.springboard.opensensitiveurl", "Open sensitive URLs");
    ("com.apple.multitasking.systemappassertions", "System app assertions");
    ("com.apple.backboardd.launchapplications", "Backboard launch applications");
    ("com.apple.developer.system-extension.install", "System extension install");
    ("com.apple.developer.driverkit", "DriverKit access");
    ("com.apple.developer.kernel.extended-virtual-addressing", "Extended virtual addressing");
    ("com.apple.developer.kernel.increased-memory-limit", "Increased memory limit") ].

Definition permission_mappings : gmap string string := dict_literal permission_items.

Definition entitlement_mappings : gmap string string := dict_literal entitlement_items.

Definition known_entitlement (key : string) : bool :=
  bool_decide (is_Some (entitlement_mappings !! key)).

(** ** The result of the analysis *)

Record permissions := {
  entitlements : list string;
  privacy : gmap string string
}.

Definition empty_permissions : permissions :=
  {| entitlements := []; privacy := ∅ |}.

(** ** extract_entitlements_with_codesign, extract_mobileprovision_with_security *)

(** The loop of both extractors: the keys of the dict, in order, that
    the entitlement dictionary knows. *)
Definition recognized_keys (items : list (string * plist)) : list string :=
  filter (λ key, known_entitlement key = true) (items.*1).

Definition tool_plist (w : world) (run : tool_run) : option plist :=
  match run with
  | RunExit returncode stdout =>
      if (returncode =? 0)%Z && truthy (JStr stdout)
      then plistlib_loads w stdout
      else None
  | _ => None
  end.

Definition extract_entitlements_with_codesign (w : world) (run : tool_run) : list string :=
  match tool_plist w run with
  | Some (PDict entitlements_data) => recognized_keys entitlements_data
  | _ => []
  end.

(** [d[k]] on the items of a parsed dict. *)
Fixpoint plist_lookup (key : string) (items : list (string * plist)) : option plist :=
  match items with
  | [] => None
  | (k, v) :: rest => if String.eqb k key then Some v else plist_lookup key rest
  end.

Definition extract_mobileprovision_with_security (w : world) (run : tool_run) : list string :=
  match tool_plist w run with
  | Some (PDict plist_data) =>
      match plist_lookup "Entitlements" plist_data with
      | Some (PDict entitlements_dict) => recognized_keys entitlements_dict
      | _ => []
      end
  | _ => []
  end.

(** ** analyze_ipa_file *)

Definition starts_with (pre s : string) : bool := String.prefix pre s.

Fixpoint ends_with (suf s : string) : bool :=
  String.eqb suf s ||
  match s with
  | EmptyString => false
  | String _ s' => ends_with suf s'
  end.

(** The privacy loop over [plist_data.items()]. *)
Definition privacy_of_items (items : list (string * plist)) (acc : gmap string string)
  : gmap string string :=
  foldl (λ acc kv,
           match permission_mappings !! kv.1 with
           | Some label =>
               match kv.2 with
               | PString description =>
                   if nonblank description then <[kv.1 := description]> acc
                   else <[kv.1 := label]> acc
               | _ => <[kv.1 := label]> acc
               end
           | None => acc
           end) acc items.

(** [for ent in entitlements_from_provision: if ent not in l: l.append(ent)] *)
Definition add_new (l from_provision : list string) : list string :=
  foldl (λ l ent, if bool_decide (ent ∈ l) then l else l ++ [ent]) l from_provision.

(** [sorted(list(set(l)))]: the set lists its members in an order of its
    own, the sort puts them in the order of [str], by code point. *)
Definition sorted_set (l : list string) : list string :=
  merge_sort String.le (elements (list_to_set l : gset string)).

Definition analyze_ipa_file (w : world) (z : ipa) : permissions :=
  if negb (zip_opens z) then empty_permissions
  else
    match filter (λ name, starts_with "Payload/" name && ends_with ".app/" name = true)
                 (namelist z) with
    | [] => empty_permissions
    | app_folder :: _ =>
        let info_plist_path := app_folder +:+ "Info.plist" in
        let privacy_read : option (gmap string string) :=
          if bool_decide (info_plist_path ∈ namelist z) then
            match read_plist z info_plist_path with
            | ReadError => None
            | ParseError => Some ∅
            | Parsed (PDict items) => Some (privacy_of_items items ∅)
            | Parsed _ => Some ∅
            end
          else Some ∅ in
        match privacy_read with
        | None => empty_permissions
        | Some found =>
            if negb (bundle_extracts z) then {| entitlements := []; privacy := found |}
            else
              let from_codesign := extract_entitlements_with_codesign w (codesign_run z) in
              let merged :=
                match filter (λ f, contains "embedded.mobileprovision" f = true) (namelist z) with
                | [] => from_codesign
                | _ :: _ =>
                    if provision_on_disk z
                    then add_new from_codesign
                           (extract_mobileprovision_with_security w (security_run z))
                    else from_codesign
                end in
              if tempdir_removed z
              then {| entitlements := sorted_set merged; privacy := found |}
              else {| entitlements := merged; privacy := found |}
        end
    end.

(** ** download_and_analyze_ipa *)

Definition download_and_analyze_ipa (w : world) (download_url : json) : permissions :=
  match http_get w download_url with
  | Fetched (IpaZip z) => analyze_ipa_file w z
  | Fetched NotAZip => empty_permissions
  | FetchTimeout => empty_permissions
  | FetchConnectionError => empty_permissions
  | FetchHTTPError => empty_permissions
  | FetchOtherError => empty_permissions
  end.

(** ** format_date *)

Definition format_date (w : world) (date_str : json) : result json :=
  if negb (truthy date_str) then Ok (JStr (strftime (now w)))
  else
    has_time ← py_in "T" date_str;
    if has_time : bool then Ok date_str
    else Ok (JStr (py_format w date_str +:+ "T00:00:00-08:00")).

(** ** generate_screenshot_urls *)

Definition generate_screenshot_urls (app_name : json) (base_url : option string)
  : result (list json) :=
  match base_url with
  | Some (String _ _ as base) =>
      match app_name with
      | JStr name =>
          let safe_name := sanitize name in
          Ok [JStr (base +:+ "/serve/screenshots/" +:+ name +:+ "/" +:+ safe_name +:+ "-0.png")]
      | _ => Raise TypeError
      end
  | _ => Ok []
  end.

(** ** convert_app_to_altstore_format *)

(** [k in d and d[k]] as a condition. *)
Definition present_and_truthy (d : gmap string json) (k : string) : bool :=
  match d !! k with
  | Some v => truthy v
  | None => false
  end.

(** The block "Handle screenshots". *)
Definition resolve_screenshots (app altstore_app : gmap string json)
  : result (gmap string json) :=
  if present_and_truthy app "screenshotURLs" then
    urls ← py_getitem app "screenshotURLs";
    Ok (<["screenshots" := urls]> altstore_app)
  else if present_and_truthy app "screenshots" then
    shots ← py_getitem app "screenshots";
    Ok (<["screenshots" := shots]> altstore_app)
  else
    let icon_url := py_get_default app "iconURL" (JStr "") in
    has_icons ← py_in "serve/icons" icon_url;
    base_url ← (if has_icons : bool
                then head ← py_split_head icon_url "/serve/icons/"; Ok (Some head)
                else Ok None);
    match base_url with
    | Some (String _ _) =>
        name ← py_getitem app "name";
        fallback_screenshots ← generate_screenshot_urls name base_url;
        if truthy (JArr fallback_screenshots)
        then Ok (<["screenshots" := JArr fallback_screenshots]> altstore_app)
        else Ok altstore_app
    | _ => Ok altstore_app
    end.

(** The chain that picks [minOSVersion] from the lower-cased name. *)
Definition min_os_version (app : gmap string json) (app_name_lower : string)
  : result json :=
  if contains "ios15" app_name_lower || contains "w15" app_name_lower then Ok (JStr "15.0")
  else if contains "ios16" app_name_lower then Ok (JStr "16.0")
  else if contains "ios14" app_name_lower then Ok (JStr "14.0")
  else if has_key app "minOSVersion" then py_getitem app "minOSVersion"
  else Ok (JStr "13.0").

(** The block "Create versions array". *)
Definition build_versions (w : world) (app altstore_app : gmap string json)
  : result (gmap string json) :=
  if negb (has_key app "versions") then
    date ← format_date w (py_get_default app "versionDate" (JStr ""));
    let version_data : gmap string json :=
      dict_literal
        [ ("version", py_get_default app "version" (JStr "1.0"));
          ("date", date);
          ("size", py_get_default app "size" (JInt 0));
          ("downloadURL", py_get_default app "downloadURL" (JStr ""));
          ("localizedDescription", py_get_default app "localizedDescription" (JStr "")) ] in
    app_name_lower ← py_lower (py_get_default app "name" (JStr ""));
    min_os ← min_os_version app app_name_lower;
    let version_data := <["minOSVersion" := min_os]> version_data in
    Ok (<["versions" := JArr [JObj version_data]]> altstore_app)
  else
    versions ← py_getitem app "versions";
    Ok (<["versions" := versions]> altstore_app).

(** The dict handed back by [download_and_analyze_ipa], as JSON. *)
Definition entitlements_json (p : permissions) : json := JArr (JStr <$> entitlements p).
Definition privacy_json (p : permissions) : json := JObj (JStr <$> privacy p).

(** The block "Analyze IPA for permissions if requested". *)
Definition attach_permissions (w : world) (analyze_ipa : bool) (altstore_app : gmap string json)
  : result (gmap string json) :=
  if analyze_ipa then
    versions ← py_getitem altstore_app "versions";
    if truthy versions then
      first ← py_first versions;
      download_url ← py_get_of first "downloadURL";
      if truthy download_url then
        let permissions := download_and_analyze_ipa w download_url in
        if truthy (entitlements_json permissions) || truthy (privacy_json permissions) then
          let clean_permissions : gmap string json := ∅ in
          let clean_permissions :=
            if truthy (entitlements_json permissions)
            then <["entitlements" := entitlements_json permissions]> clean_permissions
            else clean_permissions in
          let clean_permissions :=
            if truthy (privacy_json permissions)
            then <["privacy" := privacy_json permissions]> clean_permissions
            else clean_permissions in
          if truthy (JObj clean_permissions)
          then Ok (<["appPermissions" := JObj clean_permissions]> altstore_app)
          else Ok altstore_app
        else Ok altstore_app
      else Ok altstore_app
    else Ok altstore_app
  else Ok altstore_app.

Definition convert_app_to_altstore_format (w : world) (app : gmap string json)
    (analyze_ipa : bool) : result (option (gmap string json)) :=
  if negb (truthy (JObj app)) || negb (truthy (py_get app "name"))
     || negb (truthy (py_get app "bundleIdentifier"))
  then Ok None
  else
    let altstore_app : gmap string json :=
      dict_literal
        [ ("name", py_get_default app "name" (JStr ""));
          ("bundleIdentifier", py_get_default app "bundleIdentifier" (JStr ""));
          ("developerName", py_get_default app "developerName" (JStr ""));
          ("localizedDescription", py_get_default app "localizedDescription" (JStr ""));
          ("iconURL", py_get_default app "iconURL" (JStr ""));
          ("tintColor", py_get_default app "tintColor" (JStr "FFC300")) ] in
    altstore_app ←
      (if truthy (py_get app "subtitle")
       then subtitle ← py_getitem app "subtitle"; Ok (<["subtitle" := subtitle]> altstore_app)
       else Ok altstore_app);
    altstore_app ← resolve_screenshots app altstore_app;
    altstore_app ← build_versions w app altstore_app;
    altstore_app ← attach_permissions w analyze_ipa altstore_app;
    Ok (Some altstore_app).

(** ** convert_repository *)

(** The state of the loop: [converted_apps] and [skipped_apps]. *)
Definition loop_state : Type := list json * nat.

(** One turn of the loop over [data.get('apps', [])].  [app.get] is
    called outside the [try]: on a value that is not a dict the
    [AttributeError] leaves the loop. *)
Definition process_app (w : world) (analyze_ipas : bool) (st : loop_state) (app : json)
  : result loop_state :=
  match app with
  | JObj record =>
      match convert_app_to_altstore_format w record analyze_ipas with
      | Ok (Some converted_app) =>
          if truthy (JObj converted_app)
          then Ok (st.1 ++ [JObj converted_app], st.2)
          else Ok (st.1, S st.2)
      | Ok None => Ok (st.1, S st.2)
      | Raise _ => Ok (st.1, S st.2)
      end
  | _ => Raise AttributeError
  end.

(** A run meets the clock, the network and the tools anew at each
    record: a [timeline] gives the world at the i-th record, counted from
    1 as [enumerate(..., 1)] counts. *)
Definition timeline : Type := nat → world.

Fixpoint convert_loop (t : timeline) (analyze_ipas : bool) (i : nat) (apps : list json)
    (st : loop_state) : result loop_state :=
  match apps with
  | [] => Ok st
  | app :: rest =>
      st' ← process_app (t i) analyze_ipas st app;
      convert_loop t analyze_ipas (S i) rest st'
  end.

(** What [len] accepts and the [for] loop visits: the elements of a
    list, the characters of a str, the keys of a dict. *)
Fixpoint characters (s : string) : list json :=
  match s with
  | EmptyString => []
  | String c s' => JStr (String c EmptyString) :: characters s'
  end.

Definition py_iter (v : json) : result (list json) :=
  match v with
  | JArr l => Ok l
  | JStr s => Ok (characters s)
  | JObj m => Ok (JStr <$> (map_to_list m).*1)
  | _ => Raise TypeError
  end.

(** The document written to [output_file], with the two counts of the
    closing summary. *)
Record conversion := {
  output : gmap string json;
  converted_count : nat;
  skipped_apps : nat
}.

Definition convert_repository (t : timeline) (data : json) (output_file : string)
    (analyze_ipas : bool) : result conversion :=
  match data with
  | JObj data =>
      apps ← py_iter (py_get_default data "apps" (JArr []));
      st ← convert_loop t analyze_ipas 1 apps ([], 0);
      let converted_apps := st.1 in
      let data := <["apps" := JArr converted_apps]> data in
      let data :=
        if negb (has_key data "identifier")
        then <["identifier" := JStr "com.converted.source"]> data
        else data in
      let data :=
        if negb (has_key data "sourceURL")
        then <["sourceURL" := JStr ("https://example.com/" +:+ basename output_file)]> data
        else data in
      Ok {| output := data; converted_count := length converted_apps; skipped_apps := st.2 |}
  | _ => Raise AttributeError
  end.

(** ** Shapes of well-formed input, used in the statements below *)

Definition is_str (v : json) : bool :=
  match v with
  | JStr _ => true
  | _ => false
  end.

Definition is_obj (v : json) : bool :=
  match v with
  | JObj _ => true
  | _ => false
  end.

Definition str_or_absent (d : gmap string json) (k : string) : bool :=
  match d !! k with
  | Some v => is_str v
  | None => true
  end.

(** An AppRecord as the data model describes it: the name, the icon URL
    and the version date are strings, an explicit [versions] is a list of
    objects. *)
Definition app_record_shaped (app : gmap string json) : bool :=
  str_or_absent app "name" && str_or_absent app "iconURL"
  && str_or_absent app "versionDate"
  && match app !! "versions" with
     | Some (JArr l) => forallb is_obj l
     | Some _ => false
     | None => true
     end.

(** A Catalog: an object whose [apps], when present, is a list of objects. *)
Definition catalog_shaped (data : json) : bool :=
  match data with
  | JObj d =>
      match d !! "apps" with
      | Some (JArr l) => forallb is_obj l
      | Some _ => false
      | None => true
      end
  | _ => false
  end.

(** The record that one source record contributes to the output, if any. *)
Definition converted_record (w : world) (analyze_ipas : bool) (app : json) : option json :=
  match app with
  | JObj record =>
      match convert_app_to_altstore_format w record analyze_ipas with
      | Ok (Some converted_app) => Some (JObj converted_app)
      | _ => None
      end
  | _ => None
  end.

(** The VersionEntry synthesized from the flat fields of the source record. *)
Definition synthesized_version (app : gmap string json) (date min_os : json)
  : gmap string json :=
  <["minOSVersion" := min_os]>
    (dict_literal
       [ ("version", py_get_default app "version" (JStr "1.0"));
         ("date", date);
         ("size", py_get_default app "size" (JInt 0));
         ("downloadURL", py_get_default app "downloadURL" (JStr ""));
         ("localizedDescription", py_get_default app "localizedDescription" (JStr "")) ]).

(** The URL that the permission analysis of a converted record uses. *)
Definition first_download_url (altstore_app : gmap string json) : option json :=
  match altstore_app !! "versions" with
  | Some versions =>
      match py_first versions with
      | Ok (JObj first) => Some (py_get first "downloadURL")
      | _ => None
      end
  | None => None
  end.

(** The download did not produce a ZIP archive. *)
Definition fetch_fails (r : fetch_result) : bool :=
  match r with
  | FetchTimeout | FetchConnectionError | FetchHTTPError | FetchOtherError => true
  | Fetched NotAZip => true
  | Fetched (IpaZip _) => false
  end.

(** All the keys each tool reports, before the dictionary filters them. *)
Definition codesign_keys (w : world) (z : ipa) : list string :=
  match tool_plist w (codesign_run z) with
  | Some (PDict items) => items.*1
  | _ => []
  end.

Definition provision_keys (w : world) (z : ipa) : list string :=
  match tool_plist w (security_run z) with
  | Some (PDict plist_data) =>
      match plist_lookup "Entitlements" plist_data with
      | Some (PDict items) => items.*1
      | _ => []
      end
  | _ => []
  end.

(** A name contains [needle] up to case: some stretch of it lower-cases
    to [needle]. *)
Definition contains_ignoring_case (needle name : string) : Prop :=
  ∃ pre mid post, name = pre +:+ mid +:+ post ∧ lower mid = needle.

(** ** Concrete inputs for the examples *)

Definition example_world : world :=
  {| now := {| year := 2024; month := 3; day := 9; hour := 7; minute := 5; second := 0 |};
     py_repr := λ _, "?";
     http_get := λ _, FetchTimeout;
     plistlib_loads := λ _, None |}.

Definition foo_app : gmap string json :=
  dict_literal
    [ ("name", JStr "Foo");
      ("bundleIdentifier", JStr "com.x.foo");
      ("version", JStr "2.0");
      ("downloadURL", JStr "https://h/f.ipa") ].

(** A record with a name, a bundle identifier and an explicit, empty
    [versions]. *)
Definition empty_versions_app : gmap string json :=
  dict_literal
    [ ("name", JStr "Foo");
      ("bundleIdentifier", JStr "com.x.foo");
      ("versions", JArr []) ].

(** A record already in the destination schema. *)
Definition versioned_app : gmap string json :=
  dict_literal
    [ ("name", JStr "Bar");
      ("bundleIdentifier", JStr "com.x.bar");
      ("versions",
       JArr [ JObj (dict_literal
                      [ ("version", JStr "3.1");
                        ("date", JStr "2023-01-02");
                        ("downloadURL", JStr "https://h/bar.ipa") ]) ]) ].

(** A record without a name. *)
Definition nameless_app : gmap string json :=
  dict_literal [ ("bundleIdentifier", JStr "com.x.anon"); ("name", JStr "") ].

(** What the scenario of the specification expects for [foo_app]. *)
Definition foo_version (w : world) : gmap string json :=
  dict_literal
    [ ("version", JStr "2.0");
      ("downloadURL", JStr "https://h/f.ipa");
      ("minOSVersion", JStr "13.0");
      ("date", JStr (strftime (now w)));
      ("size", JInt 0);
      ("localizedDescription", JStr "") ].

Definition foo_converted (w : world) : gmap string json :=
  dict_literal
    [ ("name", JStr "Foo");
      ("bundleIdentifier", JStr "com.x.foo");
      ("developerName", JStr "");
      ("localizedDescription", JStr "");
      ("iconURL", JStr "");
      ("tintColor", JStr "FFC300");
      ("versions", JArr [JObj (foo_version w)]) ].

Definition foo_catalog : json :=
  JObj (dict_literal [ ("apps", JArr [JObj foo_app]) ]).

(** The records that the source records [apps] contribute, in their
    order, when the first of them is the i-th record of the run; and the
    number of those that contribute none. *)
Fixpoint converted_from (t : timeline) (analyze_ipas : bool) (i : nat) (apps : list json)
  : list json :=
  match apps with
  | [] => []
  | app :: rest =>
      match converted_record (t i) analyze_ipas app with
      | Some converted => converted :: converted_from t analyze_ipas (S i) rest
      | None => converted_from t analyze_ipas (S i) rest
      end
  end.

Fixpoint skipped_from (t : timeline) (analyze_ipas : bool) (i : nat) (apps : list json)
  : nat :=
  match apps with
  | [] => 0
  | app :: rest =>
      match converted_record (t i) analyze_ipas app with
      | Some _ => skipped_from t analyze_ipas (S i) rest
      | None => S (skipped_from t analyze_ipas (S i) rest)
      end
  end.

(** The document after the three updates of [convert_repository]:
    [apps] replaced, [identifier] and [sourceURL] added when absent. *)
Definition updated_document (output_file : string) (d : gmap string json)
    (converted_apps : list json) : gmap string json :=
  let data := <["apps" := JArr converted_apps]> d in
  let data :=
    if negb (has_key data "identifier")
    then <["identifier" := JStr "com.converted.source"]> data
    else data in
  if negb (has_key data "sourceURL")
  then <["sourceURL" := JStr ("https://example.com/" +:+ basename output_file)]> data
  else data.

(** What the converter returns for [empty_versions_app]. *)
Definition empty_versions_converted : gmap string json :=
  dict_literal
    [ ("name", JStr "Foo");
      ("bundleIdentifier", JStr "com.x.foo");
      ("developerName", JStr "");
      ("localizedDescription", JStr "");
      ("iconURL", JStr "");
      ("tintColor", JStr "FFC300");
      ("versions", JArr []) ].

(** A record whose name mentions two iOS versions. *)
Definition mixed_name_app : gmap string json :=
  dict_literal
    [ ("name", JStr "Game iOS15 iOS16");
      ("bundleIdentifier", JStr "com.x.game") ].

Definition mixed_name_version : gmap string json :=
  dict_literal
    [ ("version", JStr "1.0");
      ("date", JStr "2024-03-09T07:05:00-08:00");
      ("size", JInt 0);
      ("downloadURL", JStr "");
      ("localizedDescription", JStr "");
      ("minOSVersion", JStr "15.0") ].

Definition mixed_name_converted : gmap string json :=
  dict_literal
    [ ("name", JStr "Game iOS15 iOS16");
      ("bundleIdentifier", JStr "com.x.game");
      ("developerName", JStr "");
      ("localizedDescription", JStr "");
      ("iconURL", JStr "");
      ("tintColor", JStr "FFC300");
      ("versions", JArr [JObj mixed_name_version]) ].

(** A record with the icon URL of the screenshot scenario. *)
Definition icon_app : gmap string json :=
  dict_literal
    [ ("name", JStr "My App! v1.0");
      ("bundleIdentifier", JStr "com.x.my");
      ("iconURL", JStr "https://x.test/serve/icons/App.png") ].

(** An archive with a signed bundle and a provisioning profile; its
    [codesign] output is the text "cs", its decoded profile the text
    "prov". *)
Definition signed_ipa : ipa :=
  {| zip_opens := true;
     namelist := [ "Payload/";
                   "Payload/Foo.app/";
                   "Payload/Foo.app/Info.plist";
                   "Payload/Foo.app/embedded.mobileprovision";
                   "Payload/Foo.app/Foo" ];
     read_plist := λ _, Parsed (PDict [ ("CFBundleName", PString "Foo");
                                        ("NSCameraUsageDescription", PString "  ");
                                        ("NSFaceIDUsageDescription", PString "Unlock") ]);
     bundle_extracts := true;
     codesign_run := RunExit 0 "cs";
     provision_on_disk := true;
     security_run := RunExit 0 "prov";
     tempdir_removed := true |}.

(** A world in which "https://h/f.ipa" serves [signed_ipa] and every
    other download times out. *)
Definition signed_world : world :=
  {| now := {| year := 2024; month := 3; day := 9; hour := 7; minute := 5; second := 0 |};
     py_repr := λ _, "?";
     http_get := λ url,
       match url with
       | JStr "https://h/f.ipa" => Fetched (IpaZip signed_ipa)
       | _ => FetchTimeout
       end;
     plistlib_loads := λ text,
       if String.eqb text "cs" then
         Some (PDict [ ("keychain-access-groups", POther);
                       ("get-task-allow", POther);
                       ("com.example.unknown", POther) ])
       else if String.eqb text "prov" then
         Some (PDict [ ("Name", PString "dev");
                       ("Entitlements",
                        PDict [ ("get-task-allow", POther);
                                ("aps-environment", PString "development");
                                ("com.example.other", POther) ]) ])
       else None |}.

(** ** Notions used by the further properties *)

(** Every character of a string passes a test. *)
Fixpoint str_forall (p : ascii → bool) (s : string) : bool :=
  match s with
  | EmptyString => true
  | String c s' => p c && str_forall p s'
  end.

(** The record before the screenshots are resolved: the six identity
    fields, and the subtitle when the input has a non-empty one. *)
Definition base_record (app : gmap string json) : gmap string json :=
  dict_literal
    [ ("name", py_get_default app "name" (JStr ""));
      ("bundleIdentifier", py_get_default app "bundleIdentifier" (JStr ""));
      ("developerName", py_get_default app "developerName" (JStr ""));
      ("localizedDescription", py_get_default app "localizedDescription" (JStr ""));
      ("iconURL", py_get_default app "iconURL" (JStr ""));
      ("tintColor", py_get_default app "tintColor" (JStr "FFC300")) ].

Definition with_subtitle (app : gmap string json) : gmap string json :=
  if truthy (py_get app "subtitle")
  then <["subtitle" := py_get app "subtitle"]> (base_record app)
  else base_record app.

(** The keys a converted record can have. *)
Definition output_keys : list string :=
  [ "name"; "bundleIdentifier"; "developerName"; "localizedDescription"; "iconURL";
    "tintColor"; "subtitle"; "screenshots"; "versions"; "appPermissions" ].

(** A record whose name is a number. *)
Definition numeric_name_app : gmap string json :=
  dict_literal [ ("name", JInt 5); ("bundleIdentifier", JStr "com.x.five") ].

(** The value stored under [appPermissions]: the non-empty parts of
    the analysis result. *)
Definition clean_permissions (p : permissions) : gmap string json :=
  let clean : gmap string json := ∅ in
  let clean :=
    if truthy (entitlements_json p) then <["entitlements" := entitlements_json p]> clean
    else clean in
  if truthy (privacy_json p) then <["privacy" := privacy_json p]> clean else clean.

(** The screenshot URL synthesized from a base and a name. *)
Definition fallback_url (base name : string) : json :=
  JStr (base +:+ "/serve/screenshots/" +:+ name +:+ "/" +:+ sanitize name +:+ "-0.png").

(** What [signed_world] makes of [foo_app] with the analysis on. *)
Definition foo_signed_converted : gmap string json :=
  <["appPermissions" :=
      JObj (dict_literal
              [ ("entitlements",
                 JArr [ JStr "aps-environment"; JStr "get-task-allow";
                        JStr "keychain-access-groups" ]);
                ("privacy",
                 JObj (dict_literal
                         [ ("NSCameraUsageDescription", JStr "Camera access");
                           ("NSFaceIDUsageDescription", JStr "Unlock") ])) ])]>
    (foo_converted signed_world).

(** A record with both screenshot fields and a subtitle. *)
Definition screenshots_app : gmap string json :=
  dict_literal
    [ ("name", JStr "Shots");
      ("bundleIdentifier", JStr "com.x.shots");
      ("subtitle", JStr "A subtitle");
      ("screenshotURLs", JArr [JStr "https://h/1.png"]);
      ("screenshots", JArr [JStr "https://h/2.png"]);
      ("versions", JArr []) ].

(** A record whose icon URL mentions "serve/icons" without the slashes
    around it. *)
Definition odd_icon_app : gmap string json :=
  dict_literal
    [ ("name", JStr "Odd");
      ("bundleIdentifier", JStr "com.x.odd");
      ("iconURL", JStr "https://x.test/observe/icons.png") ].

(** The text stored for a privacy key: the app's own description when
    it is a string with something besides white space in it, the label of
    the dictionary otherwise. *)
Definition privacy_text (label : string) (description : plist) : string :=
  match description with
  | PString text => if nonblank text then text else label
  | _ => label
  end.

(** The inspection of an archive runs to its end: the archive opens,
    holds a bundle, its manifest (if listed) can be opened, the bundle is
    copied out and the temporary directory is removed. *)
Definition inspection_completes (z : ipa) : bool :=
  zip_opens z
  && match filter (λ name, starts_with "Payload/" name && ends_with ".app/" name = true)
                  (namelist z) with
     | [] => false
     | app_folder :: _ =>
         negb (bool_decide (app_folder +:+ "Info.plist" ∈ namelist z)
               && match read_plist z (app_folder +:+ "Info.plist") with
                  | ReadError => true
                  | _ => false
                  end)
     end
  && bundle_extracts z
  && tempdir_removed z.

(** The provisioning profile is decoded: the archive lists an entry
    whose name contains "embedded.mobileprovision" and the first such
    entry is found in the temporary directory. *)
Definition profile_consulted (z : ipa) : bool :=
  match filter (λ f, contains "embedded.mobileprovision" f = true) (namelist z) with
  | [] => false
  | _ :: _ => provision_on_disk z
  end.

(** A run of a tool from which no property list comes out. *)
Definition tool_fails (w : world) (run : tool_run) : Prop :=
  match run with
  | RunTimeout | RunError => True
  | RunExit returncode stdout =>
      returncode ≠ 0%Z ∨ stdout = "" ∨ plistlib_loads w stdout = None
  end.

(** An archive like [signed_ipa] without a provisioning profile. *)
Definition unprovisioned_ipa : ipa :=
  {| zip_opens := true;
     namelist := [ "Payload/Foo.app/"; "Payload/Foo.app/Info.plist" ];
     read_plist := λ _, ParseError;
     bundle_extracts := true;
     codesign_run := RunExit 0 "cs";
     provision_on_disk := false;
     security_run := RunTimeout;
     tempdir_removed := true |}.

(** ** batch_convert *)

(** [os.path.join] of two components. *)
Definition os_path_join (a b : string) : string :=
  if starts_with "/" b then b
  else if negb (truthy (JStr a)) || ends_with "/" a then a +:+ b
  else a +:+ "/" +:+ b.

(** What a batch run meets: the names [os.listdir] gives for the input
    directory, what opening and parsing the file at a path gives ([None]
    when either raises), and the timeline of the run over that file. *)
Record batch_env := {
  listdir : list string;
  load_json : string → option json;
  timeline_of : string → timeline
}.

(** The documents a batch run hands to the writer, with their paths, in
    the order of the listing; the output directory is taken to exist or
    to be created without an error, and the writing of a document to
    succeed.  A file whose conversion raises is reported and passed
    over. *)
Definition batch_convert (env : batch_env) (input_directory output_directory : string)
    (analyze_ipas : bool) : list (string * conversion) :=
  let json_files := filter (λ f, ends_with ".json" f = true) (listdir env) in
  omap (λ json_file,
          let input_path := os_path_join input_directory json_file in
          let output_path := os_path_join output_directory ("converted_" +:+ json_file) in
          match load_json env input_path with
          | Some data =>
              match convert_repository (timeline_of env input_path) data output_path
                                       analyze_ipas with
              | Ok c => Some (output_path, c)
              | Raise _ => None
              end
          | None => None
          end)
       json_files.

(** A directory with a catalog, a file that does not parse and a file
    that is not JSON by its name. *)
Definition example_batch : batch_env :=
  {| listdir := [ "broken.json"; "notes.txt"; "repo.json" ];
     load_json := λ path,
       if String.eqb path "in/repo.json" then Some foo_catalog else None;
     timeline_of := λ _ _, example_world |}.

(** The inspection of an archive gets as far as both tools: the archive
    opens, holds a bundle, its manifest (if listed) can be opened, the
    bundle is copied out and a provisioning profile is found on disk.
    Whether the temporary directory is then removed is left open. *)
Definition reaches_both_tools (z : ipa) : bool :=
  zip_opens z
  && match filter (λ name, starts_with "Payload/" name && ends_with ".app/" name = true)
                  (namelist z) with
     | [] => false
     | app_folder :: _ =>
         negb (bool_decide (app_folder +:+ "Info.plist" ∈ namelist z)
               && match read_plist z (app_folder +:+ "Info.plist") with
                  | ReadError => true
                  | _ => false
                  end)
     end
  && bundle_extracts z
  && match filter (λ f, contains "embedded.mobileprovision" f = true) (namelist z) with
     | [] => false
     | _ :: _ => provision_on_disk z
     end.

(** [signed_ipa] when the removal of the temporary directory raises. *)
Definition uncleaned_ipa : ipa :=
  {| zip_opens := true;
     namelist := namelist signed_ipa;
     read_plist := read_plist signed_ipa;
     bundle_extracts := true;
     codesign_run := RunExit 0 "cs";
     provision_on_disk := true;
     security_run := RunExit 0 "prov";
     tempdir_removed := false |}.

(** The archive has a bundle and [folder] is the one the inspection
    picks: the first entry that starts with "Payload/" and ends with
    ".app/". *)
Definition picked_bundle (z : ipa) (folder : string) : Prop :=
  ∃ others,
    filter (λ name, starts_with "Payload/" name && ends_with ".app/" name = true)
           (namelist z)
    = folder :: others.

(** ** Basic facts *)

Lemma bind_Ok {A B} (m : result A) (f : A → result B) (b : B) :
  (x ← m; f x) = Ok b ↔ ∃ a, m = Ok a ∧ f a = Ok b.
Proof.
  destruct m as [a|e]; simpl.
  - split; [eauto | intros (a' & Ha & Hf); congruence].
  - split; [discriminate | intros (a' & Ha & _); discriminate].
Qed.

Lemma str_app_assoc (s1 s2 s3 : string) :
  (s1 +:+ s2) +:+ s3 = s1 +:+ (s2 +:+ s3).
Proof.
  induction s1 as [|c s1 IH]; [done|].
  change (String c ((s1 +:+ s2) +:+ s3) = String c (s1 +:+ (s2 +:+ s3))).
  by rewrite IH.
Qed.

Lemma truthy_obj_nonempty (m : gmap string json) k v :
  m !! k = Some v → truthy (JObj m) = true.
Proof.
  intros Hk. simpl. apply negb_true_iff, bool_decide_eq_false.
  intros ->. by rewrite lookup_empty in Hk.
Qed.

Lemma truthy_get_Some (d : gmap string json) k :
  truthy (py_get d k) = true → ∃ v, d !! k = Some v ∧ truthy v = true.
Proof.
  unfold py_get. destruct (d !! k) as [v|]; simpl; [eauto | discriminate].
Qed.

Lemma has_key_true (d : gmap string json) k :
  has_key d k = true ↔ is_Some (d !! k).
Proof. unfold has_key. apply bool_decide_eq_true. Qed.

Lemma has_key_false (d : gmap string json) k :
  has_key d k = false ↔ d !! k = None.
Proof.
  unfold has_key. rewrite bool_decide_eq_false. split.
  - intros H. by apply eq_None_not_Some.
  - intros H [v Hv]. congruence.
Qed.

(** ** The stages of convert_app_to_altstore_format *)

Tactic Notation "inv_bind" hyp(H) "as" ident(a) ident(Ha) :=
  apply bind_Ok in H as (a & Ha & H).

Ltac inv_ok H := injection H as H; subst.

(** Closes an equation between closed terms by evaluating both sides. *)
Ltac evaluate :=
  lazymatch goal with
  | |- _ = ?rhs => vm_cast_no_check (eq_refl rhs)
  end.

Lemma py_getitem_Ok (d : gmap string json) k v :
  py_getitem d k = Ok v ↔ d !! k = Some v.
Proof.
  unfold py_getitem. destruct (d !! k); split; intros H; congruence.
Qed.

Lemma resolve_screenshots_frame app a a' :
  resolve_screenshots app a = Ok a' →
  ∀ k, k ≠ "screenshots" → a' !! k = a !! k.
Proof.
  unfold resolve_screenshots. intros H k Hk.
  destruct (present_and_truthy app "screenshotURLs").
  { inv_bind H as urls Hurls. inv_ok H. by rewrite lookup_insert_ne. }
  destruct (present_and_truthy app "screenshots").
  { inv_bind H as shots Hshots. inv_ok H. by rewrite lookup_insert_ne. }
  inv_bind H as has_icons Hicons. inv_bind H as base_url Hbase.
  destruct base_url as [[|c base]|]; try (inv_ok H; done).
  inv_bind H as name Hname. inv_bind H as fallback Hfallback.
  destruct (truthy (JArr fallback)); inv_ok H; [by rewrite lookup_insert_ne | done].
Qed.

Lemma build_versions_frame w app a a' :
  build_versions w app a = Ok a' →
  ∀ k, k ≠ "versions" → a' !! k = a !! k.
Proof.
  unfold build_versions. intros H k Hk.
  destruct (has_key app "versions"); simpl in H.
  - inv_bind H as versions Hversions. inv_ok H. by rewrite lookup_insert_ne.
  - inv_bind H as date Hdate. inv_bind H as name_lower Hlower.
    inv_bind H as min_os Hmin. inv_ok H. by rewrite lookup_insert_ne.
Qed.

Lemma build_versions_explicit w app a a' versions :
  app !! "versions" = Some versions →
  build_versions w app a = Ok a' →
  a' !! "versions" = Some versions.
Proof.
  unfold build_versions. intros Hv H.
  assert (has_key app "versions" = true) as Hk by (apply has_key_true; eauto).
  rewrite Hk in H. simpl in H. inv_bind H as versions' Hversions. apply py_getitem_Ok in Hversions.
  inv_ok H. rewrite lookup_insert_eq. congruence.
Qed.

Lemma build_versions_synthesized w app a a' :
  app !! "versions" = None →
  build_versions w app a = Ok a' →
  ∃ date name min_os,
    format_date w (py_get_default app "versionDate" (JStr "")) = Ok date
    ∧ py_get_default app "name" (JStr "") = JStr name
    ∧ min_os_version app (lower name) = Ok min_os
    ∧ a' !! "versions" = Some (JArr [JObj (synthesized_version app date min_os)]).
Proof.
  unfold build_versions. intros Hv H.
  assert (has_key app "versions" = false) as Hk by (by apply has_key_false).
  rewrite Hk in H. simpl in H. inv_bind H as date Hdate. inv_bind H as name_lower Hlower.
  inv_bind H as min_os Hmin. inv_ok H.
  destruct (py_get_default app "name" (JStr "")) as [| | | |name| |] eqn:Hname;
    simpl in Hlower; try discriminate.
  inv_ok Hlower. exists date, name, min_os. rewrite lookup_insert_eq. done.
Qed.

Lemma attach_permissions_frame w analyze a a' :
  attach_permissions w analyze a = Ok a' →
  ∀ k, k ≠ "appPermissions" → a' !! k = a !! k.
Proof.
  unfold attach_permissions. intros H k Hk.
  destruct analyze; [| by inv_ok H].
  inv_bind H as versions Hversions. destruct (truthy versions); [| by inv_ok H].
  inv_bind H as first Hfirst. inv_bind H as url Hurl.
  repeat match type of H with
         | (if ?c then _ else _) = _ => destruct c
         end; inv_ok H; try done; by rewrite lookup_insert_ne.
Qed.

(** [appPermissions] is attached only after a download that produced an
    archive. *)
Lemma attach_permissions_attached w analyze a a' :
  attach_permissions w analyze a = Ok a' →
  a' !! "appPermissions" = a !! "appPermissions"
  ∨ ∃ url, analyze = true ∧ first_download_url a = Some url
           ∧ download_and_analyze_ipa w url ≠ empty_permissions.
Proof.
  unfold attach_permissions. intros H.
  destruct analyze; [| inv_ok H; by left].
  inv_bind H as versions Hversions. apply py_getitem_Ok in Hversions.
  destruct (truthy versions); [| inv_ok H; by left].
  inv_bind H as first Hfirst. inv_bind H as url Hurl.
  destruct (truthy url); [| inv_ok H; by left].
  destruct (truthy (entitlements_json (download_and_analyze_ipa w url))
            || truthy (privacy_json (download_and_analyze_ipa w url))) eqn:Hnonempty;
    [| inv_ok H; by left].
  right. exists url. split; [done|]. split.
  - unfold first_download_url. rewrite Hversions, Hfirst.
    destruct first; simpl in Hurl; try discriminate. by inv_ok Hurl.
  - intros Hempty. rewrite Hempty in Hnonempty. vm_compute in Hnonempty. discriminate.
Qed.

(** ** convert_app_to_altstore_format as a whole *)

Lemma convert_app_inv w app analyze out :
  convert_app_to_altstore_format w app analyze = Ok (Some out) →
  truthy (py_get app "name") = true
  ∧ truthy (py_get app "bundleIdentifier") = true
  ∧ ∃ a1 a2 a3,
      a1 !! "name" = Some (py_get_default app "name" (JStr ""))
      ∧ a1 !! "screenshots" = None
      ∧ a1 !! "appPermissions" = None
      ∧ resolve_screenshots app a1 = Ok a2
      ∧ build_versions w app a2 = Ok a3
      ∧ attach_permissions w analyze a3 = Ok out.
Proof.
  unfold convert_app_to_altstore_format. intros H.
  destruct (truthy (JObj app)); [| discriminate].
  destruct (truthy (py_get app "name")); [| discriminate].
  destruct (truthy (py_get app "bundleIdentifier")); [| discriminate].
  simpl negb in H. simpl orb in H. cbv iota in H.
  split; [done|]. split; [done|].
  inv_bind H as a1 H1. inv_bind H as a2 H2. inv_bind H as a3 H3.
  inv_bind H as a4 H4. inv_ok H.
  exists a1, a2, a3. repeat split; try done.
  all: destruct (truthy (py_get app "subtitle"));
    [ inv_bind H1 as subtitle Hsub; inv_ok H1 | inv_ok H1 ];
    vm_compute; reflexivity.
Qed.

Lemma convert_app_nonempty w app analyze out :
  convert_app_to_altstore_format w app analyze = Ok (Some out) →
  truthy (JObj out) = true.
Proof.
  intros H. apply convert_app_inv in H
    as (_ & _ & a1 & a2 & a3 & Hname & _ & _ & H2 & H3 & H4).
  apply (truthy_obj_nonempty out "name" (py_get_default app "name" (JStr ""))).
  rewrite (attach_permissions_frame _ _ _ _ H4) by done.
  rewrite (build_versions_frame _ _ _ _ H3) by done.
  by rewrite (resolve_screenshots_frame _ _ _ H2).
Qed.

Lemma resolve_screenshots_returns app a :
  str_or_absent app "name" = true →
  str_or_absent app "iconURL" = true →
  is_Some (app !! "name") →
  ∃ a', resolve_screenshots app a = Ok a'.
Proof.
  unfold resolve_screenshots, present_and_truthy, str_or_absent, py_getitem, py_get_default.
  intros Hname Hicon [name Hn]. rewrite Hn in Hname |- *.
  destruct (app !! "screenshotURLs") as [urls|]; [destruct (truthy urls); [by eexists|] |];
    (destruct (app !! "screenshots") as [shots|]; [destruct (truthy shots); [by eexists|] |]).
  all: destruct name; try discriminate.
  all: destruct (app !! "iconURL") as [icon|]; simpl;
    [destruct icon; try discriminate; simpl |].
  all: repeat match goal with
              | |- context [if ?c then _ else _] => destruct c; simpl
              | |- context [match split_head ?a ?b with _ => _ end] =>
                  destruct (split_head a b); simpl
              end; by eexists.
Qed.

Lemma format_date_returns w date_str :
  is_str date_str = true → ∃ date, format_date w date_str = Ok date.
Proof.
  destruct date_str; try discriminate. intros _. unfold format_date.
  destruct (truthy (JStr s)); simpl; [| by eexists].
  destruct (contains "T" s); by eexists.
Qed.

Lemma min_os_version_returns app name_lower :
  ∃ min_os, min_os_version app name_lower = Ok min_os.
Proof.
  unfold min_os_version.
  repeat match goal with
         | |- context [if ?c then _ else _] => destruct c eqn:?
         end; try by eexists.
  match goal with
  | Hk : has_key _ _ = true |- _ => apply has_key_true in Hk as [v Hv]
  end.
  exists v. by apply py_getitem_Ok.
Qed.

Lemma build_versions_returns w app a :
  str_or_absent app "name" = true →
  str_or_absent app "versionDate" = true →
  ∃ a', build_versions w app a = Ok a'.
Proof.
  unfold build_versions, str_or_absent. intros Hname Hdate.
  destruct (has_key app "versions") eqn:Hk; simpl.
  - apply has_key_true in Hk as [v Hv]. unfold py_getitem. rewrite Hv. by eexists.
  - destruct (format_date_returns w (py_get_default app "versionDate" (JStr ""))) as [date Hd].
    { unfold py_get_default. by destruct (app !! "versionDate"). }
    rewrite Hd. simpl.
    assert (∃ name, py_get_default app "name" (JStr "") = JStr name) as [name Hn].
    { unfold py_get_default. destruct (app !! "name") as [[]|]; try discriminate; by eexists. }
    rewrite Hn. simpl.
    destruct (min_os_version_returns app (lower name)) as [min_os Hm].
    rewrite Hm. simpl. by eexists.
Qed.

Lemma attach_permissions_returns w analyze a l :
  a !! "versions" = Some (JArr l) →
  forallb is_obj l = true →
  ∃ a', attach_permissions w analyze a = Ok a'.
Proof.
  unfold attach_permissions, py_getitem. intros Hv Hl. rewrite Hv.
  destruct analyze; [| by eexists]. simpl.
  destruct l as [|first rest]; [by eexists|]. simpl.
  simpl in Hl. apply andb_true_iff in Hl as [Hfirst _].
  destruct first; try discriminate. simpl.
  repeat match goal with
         | |- context [if ?c then _ else _] => destruct c
         end; by eexists.
Qed.

(** On a record of the expected shape that has a name and a bundle
    identifier the conversion raises nothing and skips nothing. *)
Lemma convert_app_returns w app analyze :
  app_record_shaped app = true →
  truthy (py_get app "name") = true →
  truthy (py_get app "bundleIdentifier") = true →
  ∃ out, convert_app_to_altstore_format w app analyze = Ok (Some out).
Proof.
  unfold app_record_shaped. intros Hshape Hname Hbundle.
  apply andb_true_iff in Hshape as [Hshape Hversions].
  apply andb_true_iff in Hshape as [Hshape Hdate].
  apply andb_true_iff in Hshape as [Hstr Hicon].
  destruct (truthy_get_Some _ _ Hname) as (name & Hn & _).
  unfold convert_app_to_altstore_format.
  rewrite (truthy_obj_nonempty app "name" name Hn), Hname, Hbundle. simpl negb. simpl orb.
  cbv iota.
  match goal with
  | |- ∃ out, (x ← ?m; _) = _ => assert (∃ a1, m = Ok a1) as [a1 ->]
  end.
  { destruct (truthy (py_get app "subtitle")) eqn:Hsub; [| by eexists].
    destruct (truthy_get_Some _ _ Hsub) as (subtitle & Hs & _).
    unfold py_getitem. rewrite Hs. by eexists. }
  simpl.
  destruct (resolve_screenshots_returns app a1) as [a2 H2]; [done | done | by eexists |].
  rewrite H2. simpl.
  destruct (build_versions_returns w app a2) as [a3 H3]; [done | done |].
  rewrite H3. simpl.
  assert (∃ l, a3 !! "versions" = Some (JArr l) ∧ forallb is_obj l = true) as (l & Hl & Hobj).
  { destruct (app !! "versions") as [versions|] eqn:Hv.
    - destruct versions; try discriminate.
      eexists. split; [by eapply build_versions_explicit | done].
    - destruct (build_versions_synthesized _ _ _ _ Hv H3) as (date & nm & min_os & _ & _ & _ & Hs).
      eexists. split; [exact Hs | done]. }
  destruct (attach_permissions_returns w analyze a3 l Hl Hobj) as [a4 H4].
  rewrite H4. simpl. by eexists.
Qed.

Lemma converted_versions_explicit w app analyze out versions :
  convert_app_to_altstore_format w app analyze = Ok (Some out) →
  app !! "versions" = Some versions →
  out !! "versions" = Some versions.
Proof.
  intros H Hv. apply convert_app_inv in H
    as (_ & _ & a1 & a2 & a3 & _ & _ & _ & H2 & H3 & H4).
  rewrite (attach_permissions_frame _ _ _ _ H4) by done.
  by eapply build_versions_explicit.
Qed.

Lemma converted_versions_synthesized w app analyze out :
  convert_app_to_altstore_format w app analyze = Ok (Some out) →
  app !! "versions" = None →
  ∃ date name min_os,
    app !! "name" = Some (JStr name)
    ∧ min_os_version app (lower name) = Ok min_os
    ∧ out !! "versions" = Some (JArr [JObj (synthesized_version app date min_os)]).
Proof.
  intros H Hv. apply convert_app_inv in H
    as (Hname & _ & a1 & a2 & a3 & _ & _ & _ & H2 & H3 & H4).
  destruct (build_versions_synthesized _ _ _ _ Hv H3)
    as (date & name & min_os & _ & Hn & Hmin & Hversions).
  exists date, name, min_os. split; [| split; [done|]].
  - destruct (truthy_get_Some _ _ Hname) as (v & Hsome & _).
    unfold py_get_default in Hn. rewrite Hsome in Hn. simpl in Hn. congruence.
  - by rewrite (attach_permissions_frame _ _ _ _ H4).
Qed.

(** ** The loop of convert_repository *)

Lemma process_app_obj w analyze st record :
  process_app w analyze st (JObj record)
  = Ok match converted_record w analyze (JObj record) with
       | Some converted => (st.1 ++ [converted], st.2)
       | None => (st.1, S st.2)
       end.
Proof.
  unfold process_app, converted_record.
  destruct (convert_app_to_altstore_format w record analyze) as [[out|]|e] eqn:H; try done.
  by rewrite (convert_app_nonempty _ _ _ _ H).
Qed.

Lemma convert_loop_objects t analyze i apps st st' :
  convert_loop t analyze i apps st = Ok st' → forallb is_obj apps = true.
Proof.
  revert i st. induction apps as [|app rest IH]; intros i st H; [done|].
  simpl in H. inv_bind H as st1 H1.
  destruct app; try discriminate. simpl. by eapply IH.
Qed.

Lemma convert_loop_spec t analyze i apps st :
  forallb is_obj apps = true →
  convert_loop t analyze i apps st
  = Ok (st.1 ++ converted_from t analyze i apps, st.2 + skipped_from t analyze i apps).
Proof.
  revert i st.
  induction apps as [|app rest IH]; intros i [converted skipped] Hobj.
  { simpl. by rewrite app_nil_r, Nat.add_0_r. }
  simpl in Hobj. apply andb_true_iff in Hobj as [Happ Hrest].
  destruct app as [| | | | | |record]; try discriminate.
  cbn [convert_loop converted_from skipped_from].
  rewrite process_app_obj. cbn [mbind result_bind].
  rewrite IH by done.
  destruct (converted_record (t i) analyze (JObj record)) as [c|]; simpl.
  - by rewrite <- app_assoc.
  - f_equal. f_equal. lia.
Qed.

Lemma converted_from_app t analyze i (l1 l2 : list json) :
  converted_from t analyze i (l1 ++ l2)
  = converted_from t analyze i l1 ++ converted_from t analyze (i + length l1) l2.
Proof.
  revert i. induction l1 as [|app l1 IH]; intros i; simpl.
  - by rewrite Nat.add_0_r.
  - rewrite IH. replace (S i + length l1) with (i + S (length l1)) by lia.
    by destruct (converted_record (t i) analyze app).
Qed.

Lemma skipped_from_app t analyze i (l1 l2 : list json) :
  skipped_from t analyze i (l1 ++ l2)
  = skipped_from t analyze i l1 + skipped_from t analyze (i + length l1) l2.
Proof.
  revert i. induction l1 as [|app l1 IH]; intros i; simpl.
  - by rewrite Nat.add_0_r.
  - rewrite IH. replace (S i + length l1) with (i + S (length l1)) by lia.
    by destruct (converted_record (t i) analyze app).
Qed.

(** [converted_from] keeps the order of the source records: it maps the
    record at each position to what it contributes and drops the gaps. *)
Lemma converted_from_imap t analyze i (apps : list json) :
  converted_from t analyze i apps
  = omap id (imap (λ j app, converted_record (t (i + j)) analyze app) apps).
Proof.
  revert i. induction apps as [|app rest IH]; intros i; [done|].
  cbn [converted_from imap omap list_omap]. rewrite Nat.add_0_r, IH.
  assert (imap (λ j app, converted_record (t (S i + j)) analyze app) rest
          = imap ((λ j app, converted_record (t (i + j)) analyze app) ∘ S) rest) as Hshift.
  { apply imap_ext. intros j x _. simpl. by replace (i + S j) with (S (i + j)) by lia. }
  rewrite Hshift. by destruct (converted_record (t i) analyze app).
Qed.

(** Every source record is converted or counted as skipped. *)
Lemma converted_or_skipped t analyze i (apps : list json) :
  length (converted_from t analyze i apps) + skipped_from t analyze i apps = length apps.
Proof.
  revert i. induction apps as [|app rest IH]; intros i; simpl; [done|].
  specialize (IH (S i)).
  destruct (converted_record (t i) analyze app); simpl; lia.
Qed.

(** ** convert_repository as a whole *)

Lemma convert_repository_inv t data output_file analyze c :
  convert_repository t data output_file analyze = Ok c →
  ∃ d apps,
    data = JObj d
    ∧ py_iter (py_get_default d "apps" (JArr [])) = Ok apps
    ∧ forallb is_obj apps = true.
Proof.
  unfold convert_repository. intros H.
  destruct data as [| | | | | |d]; try discriminate.
  inv_bind H as apps Happs. inv_bind H as st Hst.
  exists d, apps. repeat split; [done|]. by eapply convert_loop_objects.
Qed.

Lemma convert_repository_eq t d output_file analyze apps :
  py_iter (py_get_default d "apps" (JArr [])) = Ok apps →
  forallb is_obj apps = true →
  convert_repository t (JObj d) output_file analyze
  = Ok {| output := updated_document output_file d (converted_from t analyze 1 apps);
          converted_count := length (converted_from t analyze 1 apps);
          skipped_apps := skipped_from t analyze 1 apps |}.
Proof.
  intros Happs Hobj. unfold convert_repository.
  rewrite Happs. cbn [mbind result_bind].
  rewrite convert_loop_spec by done. done.
Qed.

Lemma convert_repository_returns t data output_file analyze :
  catalog_shaped data = true →
  ∃ c, convert_repository t data output_file analyze = Ok c.
Proof.
  destruct data as [| | | | | |d]; try discriminate. simpl. intros Hshape.
  assert (∃ apps, py_iter (py_get_default d "apps" (JArr [])) = Ok apps
                  ∧ forallb is_obj apps = true) as (apps & Happs & Hobj).
  { unfold py_get_default. destruct (d !! "apps") as [[]|]; try discriminate.
    - by eexists.
    - by exists []. }
  eexists. by apply convert_repository_eq.
Qed.

Lemma updated_document_apps output_file d converted :
  updated_document output_file d converted !! "apps" = Some (JArr converted).
Proof.
  unfold updated_document.
  repeat match goal with
         | |- context [if ?c then _ else _] => destruct c
         end; rewrite ?lookup_insert_ne by done; by rewrite lookup_insert_eq.
Qed.

Lemma updated_document_identifier output_file d converted :
  updated_document output_file d converted !! "identifier"
  = Some (default (JStr "com.converted.source") (d !! "identifier")).
Proof.
  unfold updated_document.
  destruct (has_key (<["apps" := JArr converted]> d) "identifier") eqn:Hk; simpl.
  - apply has_key_true in Hk as [v Hv]. rewrite lookup_insert_ne in Hv by done.
    rewrite Hv. simpl.
    destruct (has_key _ "sourceURL"); simpl;
      rewrite ?lookup_insert_ne by done; done.
  - apply has_key_false in Hk. rewrite lookup_insert_ne in Hk by done.
    rewrite Hk. simpl.
    destruct (has_key _ "sourceURL"); simpl;
      rewrite ?lookup_insert_ne by done; by rewrite lookup_insert_eq.
Qed.

Lemma updated_document_sourceURL output_file d converted :
  updated_document output_file d converted !! "sourceURL"
  = Some (default (JStr ("https://example.com/" +:+ basename output_file))
                  (d !! "sourceURL")).
Proof.
  unfold updated_document.
  match goal with
  | |- (if negb (has_key ?m _) then _ else _) !! _ = _ =>
      assert (m !! "sourceURL" = d !! "sourceURL") as Hsame
  end.
  { destruct (has_key _ "identifier"); simpl;
      rewrite ?lookup_insert_ne by done; done. }
  destruct (has_key _ "sourceURL") eqn:Hk; simpl.
  - apply has_key_true in Hk as [v Hv]. rewrite Hv. rewrite Hsame in Hv.
    by rewrite Hv.
  - apply has_key_false in Hk. rewrite lookup_insert_eq.
    rewrite Hsame in Hk. by rewrite Hk.
Qed.

Lemma updated_document_frame output_file d converted k :
  k ≠ "apps" → k ≠ "identifier" → k ≠ "sourceURL" →
  updated_document output_file d converted !! k = d !! k.
Proof.
  intros Ha Hi Hs. unfold updated_document.
  repeat match goal with
         | |- context [if ?c then _ else _] => destruct c
         end; by rewrite ?lookup_insert_ne by done.
Qed.

(** * The claims *)

(** ** C1: every complete record yields a record with a version entry *)

(** C1, as stated, fails: a record with a name, a bundle identifier and
    an explicit empty [versions] list is converted, and the converted
    record's [versions] is that empty list, with no VersionEntry in it. *)
Lemma C1_empty_versions_counterexample :
  truthy (py_get empty_versions_app "name") = true
  ∧ truthy (py_get empty_versions_app "bundleIdentifier") = true
  ∧ ∃ out,
      convert_app_to_altstore_format example_world empty_versions_app false = Ok (Some out)
      ∧ out !! "versions" = Some (JArr []).
Proof.
  split; [evaluate|]. split; [evaluate|].
  exists empty_versions_converted. split; evaluate.
Qed.

(** C1, amended: for every record of the AppRecord shape (name, icon URL
    and version date strings, an explicit [versions] a list of objects)
    with a non-empty name and a non-empty bundle identifier, the converter
    returns exactly one converted record; when the input has no [versions]
    field its [versions] is a list of exactly one synthesized VersionEntry,
    and when the input has one, it is the input's list as it came, so it
    holds at least one VersionEntry exactly when the input's list does. *)
Theorem C1_converted_record_versions w app analyze :
  app_record_shaped app = true →
  truthy (py_get app "name") = true →
  truthy (py_get app "bundleIdentifier") = true →
  ∃ out,
    convert_app_to_altstore_format w app analyze = Ok (Some out)
    ∧ match app !! "versions" with
      | None => ∃ version_data, out !! "versions" = Some (JArr [JObj version_data])
      | Some versions =>
          out !! "versions" = Some versions
          ∧ ∃ entries, versions = JArr entries ∧ forallb is_obj entries = true
      end.
Proof.
  intros Hshape Hname Hbundle.
  destruct (convert_app_returns w app analyze Hshape Hname Hbundle) as [out Hout].
  exists out. split; [done|].
  destruct (app !! "versions") as [versions|] eqn:Hv.
  - split; [by eapply converted_versions_explicit|].
    unfold app_record_shaped in Hshape. rewrite Hv in Hshape.
    apply andb_true_iff in Hshape as [_ Hversions].
    destruct versions; try discriminate. by eexists.
  - destruct (converted_versions_synthesized _ _ _ _ Hout Hv)
      as (date & name & min_os & _ & _ & Hversions).
    by eexists.
Qed.

Lemma C1_converted_record_versions_witness :
  ∃ out,
    convert_app_to_altstore_format example_world foo_app true = Ok (Some out)
    ∧ ∃ version_data, out !! "versions" = Some (JArr [JObj version_data]).
Proof.
  destruct (C1_converted_record_versions example_world foo_app true)
    as (out & Hout & Hversions); [evaluate | evaluate | evaluate |].
  exists out. split; [exact Hout|].
  replace (foo_app !! "versions") with (@None json) in Hversions by evaluate.
  exact Hversions.
Defined.

(** ** C2: incomplete records are skipped and counted *)

(** C2: a record without a non-empty name or without a non-empty bundle
    identifier makes the converter return [None]; the loop of
    [convert_repository] leaves the converted list as it is and adds one
    to the skip counter for it; and in the written document [apps] holds
    what the records before it contribute followed by what the records
    after it contribute, nothing for the record itself, while the skip
    count is one more than the skips among the others. *)
Theorem C2_incomplete_record_skipped app :
  truthy (py_get app "name") = false ∨ truthy (py_get app "bundleIdentifier") = false →
  (∀ w analyze, convert_app_to_altstore_format w app analyze = Ok None)
  ∧ (∀ w analyze st, process_app w analyze st (JObj app) = Ok (st.1, S st.2))
  ∧ (∀ t analyze d before after output_file c,
       d !! "apps" = Some (JArr (before ++ JObj app :: after)) →
       convert_repository t (JObj d) output_file analyze = Ok c →
       output c !! "apps"
       = Some (JArr (converted_from t analyze 1 before
                     ++ converted_from t analyze (2 + length before) after))
       ∧ skipped_apps c
         = skipped_from t analyze 1 before
           + 1
           + skipped_from t analyze (2 + length before) after).
Proof.
  intros Hmissing.
  assert (∀ w analyze, convert_app_to_altstore_format w app analyze = Ok None) as Hskip.
  { intros w analyze. unfold convert_app_to_altstore_format.
    destruct Hmissing as [-> | ->]; simpl negb; by rewrite ?orb_true_r. }
  assert (∀ w analyze, converted_record w analyze (JObj app) = None) as Hnone.
  { intros w analyze. unfold converted_record. by rewrite Hskip. }
  split; [done|]. split.
  { intros w analyze st. by rewrite process_app_obj, Hnone. }
  intros t analyze d before after output_file c Happs Hc.
  destruct (convert_repository_inv _ _ _ _ _ Hc) as (d' & apps & Hd & Hiter & Hobj).
  inv_ok Hd. unfold py_get_default in Hiter. rewrite Happs in Hiter.
  simpl in Hiter. inv_ok Hiter.
  rewrite (convert_repository_eq t d' output_file analyze
             (before ++ JObj app :: after)) in Hc
    by (by unfold py_get_default; rewrite ?Happs).
  inv_ok Hc. cbn [output skipped_apps].
  rewrite updated_document_apps, converted_from_app, skipped_from_app.
  cbn [converted_from skipped_from]. rewrite Hnone.
  replace (S (1 + length before)) with (2 + length before) by lia.
  split; [done | lia].
Qed.

Lemma C2_incomplete_record_skipped_witness :
  convert_app_to_altstore_format example_world nameless_app true = Ok None
  ∧ ∃ c,
      convert_repository (λ _, example_world)
        (JObj (<["apps" := JArr ([JObj foo_app] ++ JObj nameless_app :: [JObj foo_app])]> ∅))
        "out.json" false = Ok c
      ∧ output c !! "apps"
        = Some (JArr [JObj (foo_converted example_world); JObj (foo_converted example_world)])
      ∧ skipped_apps c = 1.
Proof.
  destruct (C2_incomplete_record_skipped nameless_app) as (Hnone & _ & Hrun);
    [left; evaluate|].
  split; [apply Hnone|].
  destruct (convert_repository_returns (λ _, example_world)
              (JObj (<["apps" := JArr ([JObj foo_app] ++ JObj nameless_app :: [JObj foo_app])]> ∅))
              "out.json" false) as [c Hc]; [evaluate|].
  exists c. split; [exact Hc|].
  destruct (Hrun _ _ _ _ _ _ _ (lookup_insert_eq _ _ _) Hc) as [Happs Hskipped].
  rewrite Happs, Hskipped. split; evaluate.
Defined.

(** ** C6: an explicit versions list is passed through *)

(** C6: when the input record carries a [versions] field, every record
    the converter returns for it has exactly that value under [versions],
    whether or not the permission analysis runs; and for a record of the
    AppRecord shape with a name and a bundle identifier the converter does
    return one. *)
Theorem C6_explicit_versions_unchanged w app analyze versions :
  app !! "versions" = Some versions →
  (∀ out,
     convert_app_to_altstore_format w app analyze = Ok (Some out) →
     out !! "versions" = Some versions)
  ∧ (app_record_shaped app = true →
     truthy (py_get app "name") = true →
     truthy (py_get app "bundleIdentifier") = true →
     ∃ out,
       convert_app_to_altstore_format w app analyze = Ok (Some out)
       ∧ out !! "versions" = Some versions).
Proof.
  intros Hv. split.
  - intros out Hout. by eapply converted_versions_explicit.
  - intros Hshape Hname Hbundle.
    destruct (convert_app_returns w app analyze Hshape Hname Hbundle) as [out Hout].
    exists out. split; [done|]. by eapply converted_versions_explicit.
Qed.

Lemma C6_explicit_versions_unchanged_witness :
  ∃ out,
    convert_app_to_altstore_format example_world versioned_app true = Ok (Some out)
    ∧ out !! "versions" = versioned_app !! "versions".
Proof.
  destruct (C6_explicit_versions_unchanged example_world versioned_app true
              (JArr [ JObj (dict_literal
                              [ ("version", JStr "3.1");
                                ("date", JStr "2023-01-02");
                                ("downloadURL", JStr "https://h/bar.ipa") ]) ]))
    as [_ Hreturns]; [evaluate|].
  destruct Hreturns as (out & Hout & Hversions);
    [evaluate | evaluate | evaluate |].
  exists out. split; [exact Hout|].
  rewrite Hversions. evaluate.
Defined.

(** ** C7: the scenario of the specification *)

Lemma strftime_offset dt : ∃ stamp, strftime dt = stamp +:+ "-08:00".
Proof.
  unfold strftime.
  exists (zero_pad 4 (year dt) +:+ "-" +:+ zero_pad 2 (month dt) +:+ "-"
          +:+ zero_pad 2 (day dt) +:+ "T" +:+ zero_pad 2 (hour dt) +:+ ":"
          +:+ zero_pad 2 (minute dt) +:+ ":" +:+ zero_pad 2 (second dt)).
  by rewrite !str_app_assoc.
Qed.

(** C7: with the analysis off, the record [{name: "Foo", bundleIdentifier:
    "com.x.foo", version: "2.0", downloadURL: "https://h/f.ipa"}] is
    converted to one record whose [versions] holds the single entry
    [{version: "2.0", downloadURL: "https://h/f.ipa", minOSVersion: "13.0",
    date: now, size: 0, localizedDescription: ""}], the date being the
    clock's time followed by the fixed offset [-08:00]; the record has no
    [appPermissions]; and the catalog holding just that record is written
    with just that converted record and nothing skipped. *)
Theorem C7_foo_scenario (t : timeline) output_file :
  let w := t 1 in
  convert_app_to_altstore_format w foo_app false = Ok (Some (foo_converted w))
  ∧ foo_converted w !! "versions" = Some (JArr [JObj (foo_version w)])
  ∧ foo_version w !! "date" = Some (JStr (strftime (now w)))
  ∧ (∃ stamp, strftime (now w) = stamp +:+ "-08:00")
  ∧ foo_converted w !! "appPermissions" = None
  ∧ ∃ c,
      convert_repository t foo_catalog output_file false = Ok c
      ∧ output c !! "apps" = Some (JArr [JObj (foo_converted w)])
      ∧ converted_count c = 1
      ∧ skipped_apps c = 0.
Proof.
  intros w.
  assert (convert_app_to_altstore_format w foo_app false = Ok (Some (foo_converted w)))
    as Hfoo by evaluate.
  split; [done|]. split; [evaluate|]. split; [evaluate|].
  split; [apply strftime_offset|]. split; [evaluate|].
  eexists. split.
  { unfold foo_catalog. apply (convert_repository_eq t _ output_file false [JObj foo_app]);
      evaluate. }
  cbn [output converted_count skipped_apps].
  rewrite updated_document_apps.
  cbn [converted_from skipped_from converted_record]. fold w. rewrite Hfoo.
  split; [reflexivity|]. split; reflexivity.
Qed.

(** ** C9: identifier and sourceURL are always in the written document *)

(** C9: every document [convert_repository] writes has an [identifier]
    and a [sourceURL]: the input's own when the input has the key,
    ["com.converted.source"] and ["https://example.com/"] followed by the
    base name of the output file otherwise; and a document is written for
    every catalog (an object whose [apps], if any, is a list of objects). *)
Theorem C9_identifier_and_source_url (t : timeline) data output_file analyze :
  (∀ c,
     convert_repository t data output_file analyze = Ok c →
     ∃ d,
       data = JObj d
       ∧ output c !! "identifier"
         = Some (default (JStr "com.converted.source") (d !! "identifier"))
       ∧ output c !! "sourceURL"
         = Some (default (JStr ("https://example.com/" +:+ basename output_file))
                         (d !! "sourceURL")))
  ∧ (catalog_shaped data = true →
     ∃ c, convert_repository t data output_file analyze = Ok c
          ∧ is_Some (output c !! "identifier") ∧ is_Some (output c !! "sourceURL")).
Proof.
  assert (∀ c,
     convert_repository t data output_file analyze = Ok c →
     ∃ d,
       data = JObj d
       ∧ output c !! "identifier"
         = Some (default (JStr "com.converted.source") (d !! "identifier"))
       ∧ output c !! "sourceURL"
         = Some (default (JStr ("https://example.com/" +:+ basename output_file))
                         (d !! "sourceURL"))) as Hwritten.
  { intros c Hc.
    destruct (convert_repository_inv _ _ _ _ _ Hc) as (d & apps & -> & Hiter & Hobj).
    rewrite (convert_repository_eq _ _ _ _ _ Hiter Hobj) in Hc. inv_ok Hc.
    exists d. cbn [output].
    by rewrite updated_document_identifier, updated_document_sourceURL. }
  split; [done|].
  intros Hshape.
  destruct (convert_repository_returns t data output_file analyze Hshape) as [c Hc].
  exists c. split; [done|].
  destruct (Hwritten c Hc) as (d & _ & -> & ->). by split; eexists.
Qed.

Lemma C9_identifier_and_source_url_witness :
  ∃ c,
    convert_repository (λ _, example_world) foo_catalog "out/converted_repo.json" true
    = Ok c
    ∧ output c !! "identifier" = Some (JStr "com.converted.source")
    ∧ output c !! "sourceURL" = Some (JStr "https://example.com/converted_repo.json").
Proof.
  destruct (C9_identifier_and_source_url (λ _, example_world) foo_catalog
              "out/converted_repo.json" true) as [Hwritten Hreturns].
  destruct Hreturns as (c & Hc & _); [evaluate|].
  exists c. split; [exact Hc|].
  destruct (Hwritten c Hc) as (d & Hd & Hid & Hurl).
  injection Hd as <-. rewrite Hid, Hurl. split; evaluate.
Defined.

(** ** C10: the rest of the document is left alone *)

(** C10: in every document [convert_repository] writes, a top-level key
    other than [apps], [identifier] and [sourceURL] has the value it has in
    the input (and is absent if absent there); [identifier] and [sourceURL]
    keep the input's value when the input has one; and [apps] lists what
    the source records contribute, position by position in the order of
    the input, each source record giving one converted record or none
    (and then counting as skipped).  A document is written for every
    catalog. *)
Theorem C10_document_frame (t : timeline) data output_file analyze :
  (∀ c,
     convert_repository t data output_file analyze = Ok c →
     ∃ d apps,
       data = JObj d
       ∧ py_iter (py_get_default d "apps" (JArr [])) = Ok apps
       ∧ (∀ k, k ≠ "apps" → k ≠ "identifier" → k ≠ "sourceURL" →
               output c !! k = d !! k)
       ∧ (∀ v, d !! "identifier" = Some v → output c !! "identifier" = Some v)
       ∧ (∀ v, d !! "sourceURL" = Some v → output c !! "sourceURL" = Some v)
       ∧ output c !! "apps"
         = Some (JArr (omap id (imap (λ j app, converted_record (t (S j)) analyze app)
                                     apps)))
       ∧ converted_count c + skipped_apps c = length apps)
  ∧ (catalog_shaped data = true →
     ∃ c, convert_repository t data output_file analyze = Ok c).
Proof.
  split; [| apply convert_repository_returns].
  intros c Hc.
  destruct (convert_repository_inv _ _ _ _ _ Hc) as (d & apps & -> & Hiter & Hobj).
  rewrite (convert_repository_eq _ _ _ _ _ Hiter Hobj) in Hc. inv_ok Hc.
  exists d, apps. cbn [output]. repeat split; try done.
  - intros k Ha Hi Hs. by apply updated_document_frame.
  - intros v Hv. by rewrite updated_document_identifier, Hv.
  - intros v Hv. by rewrite updated_document_sourceURL, Hv.
  - rewrite updated_document_apps. by rewrite converted_from_imap.
  - cbn [converted_count skipped_apps]. apply converted_or_skipped.
Qed.

Lemma C10_document_frame_witness :
  ∃ c,
    convert_repository (λ _, example_world)
      (JObj (<["name" := JStr "My Repo"]> (<["apps" := JArr [JObj foo_app]]> ∅)))
      "out.json" false = Ok c
    ∧ output c !! "name" = Some (JStr "My Repo").
Proof.
  destruct (C10_document_frame (λ _, example_world)
              (JObj (<["name" := JStr "My Repo"]> (<["apps" := JArr [JObj foo_app]]> ∅)))
              "out.json" false) as [Hframe Hreturns].
  destruct Hreturns as [c Hc]; [evaluate|].
  exists c. split; [exact Hc|].
  destruct (Hframe c Hc) as (d & apps & Hd & _ & Hkeys & _).
  injection Hd as <-. rewrite Hkeys by done. evaluate.
Defined.

(** ** Strings: substrings and lower-casing *)

Lemma append_nil_l (s : string) : "" +:+ s = s.
Proof. reflexivity. Qed.

Lemma append_cons (c : ascii) (s t : string) : String c s +:+ t = String c (s +:+ t).
Proof. reflexivity. Qed.

Lemma prefix_spec (pre s : string) :
  String.prefix pre s = true ↔ ∃ post, s = pre +:+ post.
Proof.
  revert s. induction pre as [|c pre IH]; intros s.
  - split; [intros _; exists s; reflexivity | intros _; by destruct s].
  - destruct s as [|c' s]; simpl.
    + split; [discriminate | intros [post H]; discriminate].
    + destruct (ascii_dec c c') as [<-|Hne].
      * rewrite IH. split; intros [post H]; exists post.
        -- by rewrite append_cons, H.
        -- rewrite append_cons in H. congruence.
      * split; [discriminate|]. intros [post H]. rewrite append_cons in H. congruence.
Qed.

Lemma contains_spec (needle s : string) :
  contains needle s = true ↔ ∃ pre post, s = pre +:+ needle +:+ post.
Proof.
  induction s as [|c s IH].
  - cbn [contains]. rewrite orb_false_r, prefix_spec. split.
    + intros [post H]. by exists "", post.
    + intros (pre & post & H). destruct pre; [by exists post | discriminate].
  - cbn [contains]. rewrite orb_true_iff, IH, prefix_spec. split.
    + intros [[post H] | (pre & post & H)].
      * by exists "", post.
      * exists (String c pre), post. by rewrite append_cons, H.
    + intros (pre & post & H). destruct pre as [|c' pre].
      * left. by exists post.
      * right. rewrite append_cons in H. exists pre, post. congruence.
Qed.

Lemma str_map_app f (s t : string) : str_map f (s +:+ t) = str_map f s +:+ str_map f t.
Proof.
  induction s as [|c s IH]; [done|].
  rewrite append_cons. cbn [str_map]. by rewrite append_cons, IH.
Qed.

Lemma str_map_app_inv f (s a b : string) :
  str_map f s = a +:+ b →
  ∃ a' b', s = a' +:+ b' ∧ str_map f a' = a ∧ str_map f b' = b.
Proof.
  revert s. induction a as [|c a IH]; intros s H.
  - by exists "", s.
  - destruct s as [|c' s]; [discriminate|].
    rewrite append_cons in H. cbn [str_map] in H. injection H as Hc Hs.
    destruct (IH s Hs) as (a' & b' & -> & Ha & Hb).
    exists (String c' a'), b'. cbn [str_map]. by rewrite append_cons, Hc, Ha.
Qed.

Lemma contains_lower_iff (needle name : string) :
  contains needle (lower name) = true ↔ contains_ignoring_case needle name.
Proof.
  unfold contains_ignoring_case, lower. rewrite contains_spec. split.
  - intros (pre & post & H).
    apply str_map_app_inv in H as (pre' & rest & -> & _ & Hrest).
    apply str_map_app_inv in Hrest as (mid & post' & -> & Hmid & _).
    by exists pre', mid, post'.
  - intros (pre & mid & post & -> & Hmid).
    exists (str_map chr_lower pre), (str_map chr_lower post).
    by rewrite !str_map_app, Hmid.
Qed.

Lemma str_map_length f (s : string) : String.length (str_map f s) = String.length s.
Proof. induction s as [|c s IH]; simpl; congruence. Qed.

Lemma str_map_get f (s : string) i c :
  String.get i s = Some c → String.get i (str_map f s) = Some (f c).
Proof.
  revert i. induction s as [|c' s IH]; intros i H; [discriminate|].
  destruct i as [|i]; simpl in *; [congruence | by apply IH].
Qed.

(** ** C3: the minimum OS version of a synthesized entry *)

Lemma min_os_version_chain app name_lower min_os :
  min_os_version app name_lower = Ok min_os →
  min_os
  = if contains "ios15" name_lower || contains "w15" name_lower then JStr "15.0"
    else if contains "ios16" name_lower then JStr "16.0"
    else if contains "ios14" name_lower then JStr "14.0"
    else default (JStr "13.0") (app !! "minOSVersion").
Proof.
  unfold min_os_version. intros H.
  destruct (contains "ios15" name_lower || contains "w15" name_lower); [by inv_ok H|].
  destruct (contains "ios16" name_lower); [by inv_ok H|].
  destruct (contains "ios14" name_lower); [by inv_ok H|].
  destruct (has_key app "minOSVersion") eqn:Hk.
  - apply py_getitem_Ok in H. by rewrite H.
  - apply has_key_false in Hk. rewrite Hk. by inv_ok H.
Qed.

(** C3, as stated, fails: the name "Game iOS15 iOS16" contains "ios16"
    up to case, and the synthesized entry has [minOSVersion] "15.0", not
    "16.0". *)
Lemma C3_priority_counterexample :
  mixed_name_app !! "versions" = None
  ∧ contains "ios16" (lower "Game iOS15 iOS16") = true
  ∧ convert_app_to_altstore_format example_world mixed_name_app false
    = Ok (Some mixed_name_converted)
  ∧ mixed_name_converted !! "versions" = Some (JArr [JObj mixed_name_version])
  ∧ mixed_name_version !! "minOSVersion" = Some (JStr "15.0")
  ∧ mixed_name_version !! "minOSVersion" ≠ Some (JStr "16.0").
Proof.
  split; [evaluate|]. split; [evaluate|]. split; [evaluate|].
  split; [evaluate|].
  assert (mixed_name_version !! "minOSVersion" = Some (JStr "15.0")) as H by evaluate.
  split; [exact H|]. rewrite H. discriminate.
Qed.

(** C3, amended: for a record without a [versions] field, the
    [minOSVersion] of the synthesized entry follows a chain of tests on
    the lower-cased name, taken in this order: "ios15" or "w15" occurs,
    then "15.0"; else "ios16" occurs, then "16.0"; else "ios14" occurs,
    then "14.0"; else the record's own [minOSVersion] if it has one; else
    "13.0".  A needle occurs in the lower-cased name exactly when some
    stretch of the name lower-cases to it.  For a record of the AppRecord
    shape with a name and a bundle identifier the entry exists. *)
Theorem C3_min_os_priority_chain w app analyze :
  app !! "versions" = None →
  (∀ out,
     convert_app_to_altstore_format w app analyze = Ok (Some out) →
     ∃ name version_data,
       app !! "name" = Some (JStr name)
       ∧ out !! "versions" = Some (JArr [JObj version_data])
       ∧ version_data !! "minOSVersion"
         = Some (if contains "ios15" (lower name) || contains "w15" (lower name)
                 then JStr "15.0"
                 else if contains "ios16" (lower name) then JStr "16.0"
                 else if contains "ios14" (lower name) then JStr "14.0"
                 else default (JStr "13.0") (app !! "minOSVersion")))
  ∧ (∀ needle name,
       contains needle (lower name) = true ↔ contains_ignoring_case needle name)
  ∧ (app_record_shaped app = true →
     truthy (py_get app "name") = true →
     truthy (py_get app "bundleIdentifier") = true →
     ∃ out, convert_app_to_altstore_format w app analyze = Ok (Some out)).
Proof.
  intros Hv. split; [| split].
  - intros out Hout.
    destruct (converted_versions_synthesized _ _ _ _ Hout Hv)
      as (date & name & min_os & Hname & Hmin & Hversions).
    exists name, (synthesized_version app date min_os).
    split; [done|]. split; [done|].
    unfold synthesized_version. rewrite lookup_insert_eq.
    by rewrite (min_os_version_chain _ _ _ Hmin).
  - apply contains_lower_iff.
  - apply convert_app_returns.
Qed.

Lemma C3_min_os_priority_chain_witness :
  ∃ out name version_data,
    convert_app_to_altstore_format example_world foo_app true = Ok (Some out)
    ∧ foo_app !! "name" = Some (JStr name)
    ∧ out !! "versions" = Some (JArr [JObj version_data])
    ∧ version_data !! "minOSVersion" = Some (JStr "13.0").
Proof.
  destruct (C3_min_os_priority_chain example_world foo_app true)
    as (Hchain & _ & Hreturns); [evaluate|].
  destruct Hreturns as [out Hout]; [evaluate | evaluate | evaluate |].
  destruct (Hchain out Hout) as (name & version_data & Hname & Hversions & Hmin).
  exists out, name, version_data. split; [exact Hout|]. split; [exact Hname|].
  split; [exact Hversions|]. rewrite Hmin.
  assert (foo_app !! "name" = Some (JStr "Foo")) as Hfoo by evaluate.
  rewrite Hfoo in Hname. injection Hname as <-. evaluate.
Defined.

(** ** C8: the screenshot fallback *)

Lemma resolve_screenshots_fallback app a a' :
  app !! "iconURL" = Some (JStr "https://x.test/serve/icons/App.png") →
  app !! "screenshotURLs" = None →
  app !! "screenshots" = None →
  resolve_screenshots app a = Ok a' →
  ∃ name,
    app !! "name" = Some (JStr name)
    ∧ a' !! "screenshots"
      = Some (JArr [JStr ("https://x.test" +:+ "/serve/screenshots/" +:+ name +:+ "/"
                          +:+ sanitize name +:+ "-0.png")]).
Proof.
  unfold resolve_screenshots, present_and_truthy, py_get_default.
  intros Hicon Hurls Hshots H. rewrite Hurls, Hshots, Hicon in H.
  inv_bind H as has_icons Hin. vm_compute in Hin. inv_ok Hin.
  inv_bind H as base_url Hbase. vm_compute in Hbase. inv_ok Hbase.
  cbv beta iota in H.
  inv_bind H as name Hname. apply py_getitem_Ok in Hname.
  inv_bind H as fallback Hfallback.
  unfold generate_screenshot_urls in Hfallback.
  destruct name as [| | | |name| |]; try discriminate.
  inv_ok Hfallback. cbn [truthy] in H. inv_ok H.
  exists name. split; [done|]. by rewrite lookup_insert_eq.
Qed.

Lemma sanitize_get (name : string) i c :
  String.get i name = Some c →
  String.get i (sanitize name) = Some (if is_safe c then c else "_"%char).
Proof. apply str_map_get. Qed.

(** C8: for a record whose icon URL is
    "https://x.test/serve/icons/App.png" and which has neither
    [screenshotURLs] nor [screenshots], every converted record has under
    [screenshots] exactly one URL: the base "https://x.test", then
    "/serve/screenshots/", the name, "/", the sanitized name and "-0.png".
    The sanitized name has the length of the name and, at each position,
    the name's character if it is a word character, '-', '_' or '.', and
    '_' otherwise.  For a record of the AppRecord shape with a name and a
    bundle identifier the converted record exists. *)
Theorem C8_screenshot_fallback w app analyze :
  app !! "iconURL" = Some (JStr "https://x.test/serve/icons/App.png") →
  app !! "screenshotURLs" = None →
  app !! "screenshots" = None →
  (∀ out,
     convert_app_to_altstore_format w app analyze = Ok (Some out) →
     ∃ name,
       app !! "name" = Some (JStr name)
       ∧ out !! "screenshots"
         = Some (JArr [JStr ("https://x.test" +:+ "/serve/screenshots/" +:+ name +:+ "/"
                             +:+ sanitize name +:+ "-0.png")])
       ∧ String.length (sanitize name) = String.length name
       ∧ ∀ i c, String.get i name = Some c →
                String.get i (sanitize name) = Some (if is_safe c then c else "_"%char))
  ∧ (app_record_shaped app = true →
     truthy (py_get app "name") = true →
     truthy (py_get app "bundleIdentifier") = true →
     ∃ out, convert_app_to_altstore_format w app analyze = Ok (Some out)).
Proof.
  intros Hicon Hurls Hshots. split; [| apply convert_app_returns].
  intros out Hout.
  apply convert_app_inv in Hout
    as (_ & _ & a1 & a2 & a3 & _ & _ & _ & H2 & H3 & H4).
  destruct (resolve_screenshots_fallback _ _ _ Hicon Hurls Hshots H2) as (name & Hname & Hs).
  exists name. split; [done|]. split.
  - rewrite (attach_permissions_frame _ _ _ _ H4) by done.
    by rewrite (build_versions_frame _ _ _ _ H3).
  - split; [apply str_map_length | apply sanitize_get].
Qed.

Lemma C8_screenshot_fallback_witness :
  ∃ out,
    convert_app_to_altstore_format example_world icon_app false = Ok (Some out)
    ∧ out !! "screenshots"
      = Some (JArr [JStr "https://x.test/serve/screenshots/My App! v1.0/My_App__v1.0-0.png"]).
Proof.
  destruct (C8_screenshot_fallback example_world icon_app false)
    as [Hshots Hreturns]; [evaluate | evaluate | evaluate |].
  destruct Hreturns as [out Hout]; [evaluate | evaluate | evaluate |].
  exists out. split; [exact Hout|].
  destruct (Hshots out Hout) as (name & Hname & Hurl & _).
  assert (icon_app !! "name" = Some (JStr "My App! v1.0")) as Hn by evaluate.
  rewrite Hn in Hname. injection Hname as <-. rewrite Hurl. evaluate.
Defined.

(** ** C4: a failed download leaves no trace in the record *)

Lemma first_download_url_frame (a a' : gmap string json) :
  a' !! "versions" = a !! "versions" → first_download_url a' = first_download_url a.
Proof. unfold first_download_url. by intros ->. Qed.

(** C4: if fetching a URL times out, fails to connect, answers with an
    HTTP error status, fails in another way, or brings back a file that
    is not a ZIP archive, [download_and_analyze_ipa] returns the empty
    result, with no entitlements and no privacy entries; and a converted
    record whose analysis uses that URL has no [appPermissions] key. *)
Theorem C4_failed_download w url :
  fetch_fails (http_get w url) = true →
  download_and_analyze_ipa w url = {| entitlements := []; privacy := ∅ |}
  ∧ ∀ app analyze out,
      convert_app_to_altstore_format w app analyze = Ok (Some out) →
      first_download_url out = Some url →
      out !! "appPermissions" = None.
Proof.
  intros Hfails.
  assert (download_and_analyze_ipa w url = empty_permissions) as Hempty.
  { unfold download_and_analyze_ipa.
    destruct (http_get w url) as [| | | |[|z]]; try done. }
  split; [exact Hempty|].
  intros app analyze out Hout Hurl.
  apply convert_app_inv in Hout
    as (_ & _ & a1 & a2 & a3 & _ & _ & Hnone & H2 & H3 & H4).
  destruct (attach_permissions_attached _ _ _ _ H4) as [-> | (url' & _ & Hurl' & Hne)].
  - rewrite (build_versions_frame _ _ _ _ H3) by done.
    by rewrite (resolve_screenshots_frame _ _ _ H2).
  - rewrite (first_download_url_frame a3 out) in Hurl
      by (by apply (attach_permissions_frame _ _ _ _ H4)).
    congruence.
Qed.

Lemma C4_failed_download_witness :
  download_and_analyze_ipa example_world (JStr "https://h/f.ipa")
  = {| entitlements := []; privacy := ∅ |}
  ∧ convert_app_to_altstore_format example_world foo_app true
    = Ok (Some (foo_converted example_world))
  ∧ foo_converted example_world !! "appPermissions" = None.
Proof.
  destruct (C4_failed_download example_world (JStr "https://h/f.ipa"))
    as [Hempty Hrecord]; [evaluate|].
  split; [exact Hempty|].
  assert (convert_app_to_altstore_format example_world foo_app true
          = Ok (Some (foo_converted example_world))) as Hout by evaluate.
  split; [exact Hout|].
  apply (Hrecord foo_app true _ Hout). evaluate.
Defined.

(** ** C5: the entitlements of an analysed archive *)

Lemma sorted_set_elem (l : list string) e : e ∈ sorted_set l ↔ e ∈ l.
Proof.
  unfold sorted_set. rewrite merge_sort_Permutation, elem_of_elements.
  apply elem_of_list_to_set.
Qed.

Lemma sorted_set_NoDup (l : list string) : NoDup (sorted_set l).
Proof.
  unfold sorted_set. rewrite merge_sort_Permutation. apply NoDup_elements.
Qed.

Lemma sorted_set_sorted (l : list string) : StronglySorted String.le (sorted_set l).
Proof. unfold sorted_set. apply StronglySorted_merge_sort; apply _. Qed.

Lemma sorted_set_ext (l1 l2 : list string) :
  (∀ e, e ∈ l1 ↔ e ∈ l2) → sorted_set l1 = sorted_set l2.
Proof.
  intros Hsame. unfold sorted_set.
  replace (list_to_set l2 : gset string) with (list_to_set l1 : gset string); [done|].
  apply set_eq. intros e. by rewrite !elem_of_list_to_set.
Qed.

Lemma add_new_elem (l from_provision : list string) e :
  e ∈ add_new l from_provision ↔ e ∈ l ∨ e ∈ from_provision.
Proof.
  unfold add_new. revert l.
  induction from_provision as [|ent rest IH]; intros l; simpl.
  - rewrite elem_of_nil. tauto.
  - rewrite IH, elem_of_cons. case_bool_decide as Hin.
    + split; [tauto|]. intros [H | [-> | H]]; tauto.
    + rewrite elem_of_app, list_elem_of_singleton. tauto.
Qed.

Lemma recognized_keys_elem (items : list (string * plist)) e :
  e ∈ recognized_keys items ↔ e ∈ items.*1 ∧ known_entitlement e = true.
Proof. unfold recognized_keys. rewrite list_elem_of_filter. tauto. Qed.

Lemma extract_codesign_elem w z e :
  e ∈ extract_entitlements_with_codesign w (codesign_run z)
  ↔ e ∈ codesign_keys w z ∧ known_entitlement e = true.
Proof.
  unfold extract_entitlements_with_codesign, codesign_keys.
  destruct (tool_plist w (codesign_run z)) as [[]|];
    rewrite ?recognized_keys_elem, ?elem_of_nil; tauto.
Qed.

Lemma extract_provision_elem w z e :
  e ∈ extract_mobileprovision_with_security w (security_run z)
  ↔ e ∈ provision_keys w z ∧ known_entitlement e = true.
Proof.
  unfold extract_mobileprovision_with_security, provision_keys.
  destruct (tool_plist w (security_run z)) as [[|plist_data|]|];
    rewrite ?elem_of_nil; try tauto.
  destruct (plist_lookup "Entitlements" plist_data) as [[]|];
    rewrite ?recognized_keys_elem, ?elem_of_nil; tauto.
Qed.

Lemma analyze_ipa_file_reached w z :
  reaches_both_tools z = true →
  entitlements (analyze_ipa_file w z)
  = let merged := add_new (extract_entitlements_with_codesign w (codesign_run z))
                          (extract_mobileprovision_with_security w (security_run z)) in
    if tempdir_removed z then sorted_set merged else merged.
Proof.
  unfold reaches_both_tools, analyze_ipa_file. intros H.
  apply andb_true_iff in H as [H Hprov]. apply andb_true_iff in H as [H Hextract].
  apply andb_true_iff in H as [Hopen Hplist].
  rewrite Hopen, Hextract. cbn [negb].
  destruct (filter _ (namelist z)) as [|app_folder others]; [discriminate|].
  destruct (filter (λ f, contains "embedded.mobileprovision" f = true) (namelist z))
    as [|profile profiles]; [discriminate|].
  rewrite Hprov. cbv zeta.
  destruct (bool_decide (app_folder +:+ "Info.plist" ∈ namelist z));
    [destruct (read_plist z (app_folder +:+ "Info.plist")) as [| |[]]; try done |];
    by destruct (tempdir_removed z).
Qed.

Lemma extract_codesign_filtered w z :
  extract_entitlements_with_codesign w (codesign_run z)
  = filter (λ key, known_entitlement key = true) (codesign_keys w z).
Proof.
  unfold extract_entitlements_with_codesign, codesign_keys, recognized_keys.
  by destruct (tool_plist w (codesign_run z)) as [[]|].
Qed.

Lemma add_new_NoDup (l from_provision : list string) :
  NoDup l → NoDup (add_new l from_provision).
Proof.
  unfold add_new. revert l.
  induction from_provision as [|ent rest IH]; intros l Hl; [done|]. cbn [foldl].
  apply IH. case_bool_decide as Hin; [done|].
  apply NoDup_app. split; [done|]. split; [| apply NoDup_singleton].
  intros x Hx ->%list_elem_of_singleton. done.
Qed.

(** C5, as stated, fails: on an archive where both tools are consulted
    and report their lists, but the removal of the temporary directory
    raises, the handler returns the merged list as it was gathered, and
    that list is not sorted. *)
Lemma C5_unsorted_counterexample :
  extract_entitlements_with_codesign signed_world (codesign_run uncleaned_ipa)
  = ["keychain-access-groups"; "get-task-allow"]
  ∧ extract_mobileprovision_with_security signed_world (security_run uncleaned_ipa)
    = ["get-task-allow"; "aps-environment"]
  ∧ entitlements (analyze_ipa_file signed_world uncleaned_ipa)
    = ["keychain-access-groups"; "get-task-allow"; "aps-environment"]
  ∧ ¬ StronglySorted String.le (entitlements (analyze_ipa_file signed_world uncleaned_ipa)).
Proof.
  assert (entitlements (analyze_ipa_file signed_world uncleaned_ipa)
          = ["keychain-access-groups"; "get-task-allow"; "aps-environment"]) as Hfound
    by evaluate.
  split; [evaluate|]. split; [evaluate|]. split; [exact Hfound|].
  rewrite Hfound. intros Hsorted.
  apply StronglySorted_inv in Hsorted as [_ Hle].
  apply Forall_cons in Hle as [Hle _].
  vm_compute in Hle. exact Hle.
Qed.

(** C5, amended: for every pair of entitlement lists obtained from the
    code-signing inspector and from the provisioning-profile decoder, an
    identifier is in the entitlements [analyze_ipa_file] returns exactly
    when it is in one of the two lists, that is, when one of the tools
    reports it as a key and the static entitlement dictionary knows it,
    whichever tool reports it; the list has each identifier once when the
    inspector's keys are distinct; and when the inspection then leaves
    its temporary directory without an error the list has no duplicates,
    is sorted in the order of strings, and is the same whichever of the
    two lists comes first. *)
Theorem C5_entitlements_sorted_union w z :
  reaches_both_tools z = true →
  let from_codesign := extract_entitlements_with_codesign w (codesign_run z) in
  let from_provision := extract_mobileprovision_with_security w (security_run z) in
  let found := entitlements (analyze_ipa_file w z) in
  (∀ e, e ∈ found ↔ e ∈ from_codesign ∨ e ∈ from_provision)
  ∧ (∀ e, e ∈ found
          ↔ (e ∈ codesign_keys w z ∨ e ∈ provision_keys w z)
            ∧ known_entitlement e = true)
  ∧ (NoDup (codesign_keys w z) → NoDup found)
  ∧ (tempdir_removed z = true →
     NoDup found
     ∧ StronglySorted String.le found
     ∧ found = sorted_set (from_codesign ++ from_provision)
     ∧ found = sorted_set (from_provision ++ from_codesign)).
Proof.
  intros Hreach. cbv zeta. rewrite (analyze_ipa_file_reached w z Hreach). cbv zeta.
  assert (∀ e, e ∈ (if tempdir_removed z
                    then sorted_set
                           (add_new (extract_entitlements_with_codesign w (codesign_run z))
                              (extract_mobileprovision_with_security w (security_run z)))
                    else add_new (extract_entitlements_with_codesign w (codesign_run z))
                           (extract_mobileprovision_with_security w (security_run z)))
               ↔ e ∈ extract_entitlements_with_codesign w (codesign_run z)
                 ∨ e ∈ extract_mobileprovision_with_security w (security_run z)) as Hunion.
  { intros e. destruct (tempdir_removed z); by rewrite ?sorted_set_elem, add_new_elem. }
  split; [exact Hunion|]. split; [| split].
  - intros e. rewrite Hunion, extract_codesign_elem, extract_provision_elem. tauto.
  - intros Hkeys. destruct (tempdir_removed z); [apply sorted_set_NoDup|].
    apply add_new_NoDup. rewrite extract_codesign_filtered. by apply NoDup_filter.
  - intros ->. split; [apply sorted_set_NoDup|]. split; [apply sorted_set_sorted|].
    split; apply sorted_set_ext; intros e; rewrite add_new_elem, elem_of_app; tauto.
Qed.

Lemma C5_entitlements_sorted_union_witness :
  entitlements (analyze_ipa_file signed_world signed_ipa)
  = ["aps-environment"; "get-task-allow"; "keychain-access-groups"]
  ∧ NoDup (entitlements (analyze_ipa_file signed_world signed_ipa))
  ∧ StronglySorted String.le (entitlements (analyze_ipa_file signed_world signed_ipa)).
Proof.
  destruct (C5_entitlements_sorted_union signed_world signed_ipa)
    as (_ & _ & _ & Hdone); [evaluate|].
  destruct Hdone as (Hnodup & Hsorted & _); [evaluate|].
  split; [evaluate|]. split; [exact Hnodup | exact Hsorted].
Defined.

(** ** The model at work on a successful analysis *)

Example signed_app_gets_permissions :
  ∃ out,
    convert_app_to_altstore_format signed_world foo_app true = Ok (Some out)
    ∧ out !! "appPermissions"
      = Some (JObj (dict_literal
           [ ("entitlements",
              JArr [ JStr "aps-environment"; JStr "get-task-allow";
                     JStr "keychain-access-groups" ]);
             ("privacy",
              JObj (dict_literal
                      [ ("NSCameraUsageDescription", JStr "Camera access");
                        ("NSFaceIDUsageDescription", JStr "Unlock") ])) ])).
Proof.
  destruct (convert_app_returns signed_world foo_app true) as [out Hout];
    [evaluate | evaluate | evaluate |].
  exists out. split; [exact Hout|].
  assert (∀ r, r = convert_app_to_altstore_format signed_world foo_app true →
               match r with
               | Ok (Some o) => o !! "appPermissions"
               | _ => None
               end
               = Some (JObj (dict_literal
                    [ ("entitlements",
                       JArr [ JStr "aps-environment"; JStr "get-task-allow";
                              JStr "keychain-access-groups" ]);
                      ("privacy",
                       JObj (dict_literal
                               [ ("NSCameraUsageDescription", JStr "Camera access");
                                 ("NSFaceIDUsageDescription", JStr "Unlock") ])) ]))) as H.
  { intros r ->. evaluate. }
  specialize (H _ eq_refl). by rewrite Hout in H.
Qed.

Example strftime_example :
  strftime {| year := 2024; month := 3; day := 9; hour := 7; minute := 5; second := 0 |}
  = "2024-03-09T07:05:00-08:00".
Proof. reflexivity. Qed.

Example sanitize_example : sanitize "My App! v1.0" = "My_App__v1.0".
Proof. reflexivity. Qed.

Example basename_example : basename "out/dir/converted_repo.json" = "converted_repo.json".
Proof. reflexivity. Qed.

Example duplicate_keys_last_wins :
  entitlement_mappings !! "com.apple.developer.devicecheck.appattest-environment"
  = Some "App Attest environment".
Proof. evaluate. Qed.

(** * Further properties of the code *)

(** ** format_date *)

Lemma contains_middle (needle pre post : string) :
  contains needle (pre +:+ needle +:+ post) = true.
Proof. apply contains_spec. by exists pre, post. Qed.

Lemma strftime_has_time dt : contains "T" (strftime dt) = true.
Proof.
  unfold strftime.
  rewrite <- (str_app_assoc (zero_pad 2 (month dt)) "-" (zero_pad 2 (day dt) +:+ _)).
  rewrite <- (str_app_assoc (zero_pad 2 (month dt) +:+ "-") (zero_pad 2 (day dt)) _).
  rewrite <- (str_app_assoc "-" _ _).
  rewrite <- (str_app_assoc (zero_pad 4 (year dt)) _ _).
  apply contains_middle.
Qed.

Lemma format_date_with_time w s :
  contains "T" s = true → format_date w (JStr s) = Ok (JStr s).
Proof.
  intros H. destruct s as [|c s]; [discriminate|].
  unfold format_date. cbn [truthy negb py_in mbind result_bind]. by rewrite H.
Qed.

(** X1: on a string, [format_date] always returns a string that contains
    a "T" and that [format_date] leaves as it is: the clock's time for the
    empty string, the string itself when it has a "T", the string followed
    by "T00:00:00-08:00" otherwise. *)
Theorem format_date_string_idempotent w s :
  ∃ out,
    format_date w (JStr s) = Ok (JStr out)
    ∧ contains "T" out = true
    ∧ format_date w (JStr out) = Ok (JStr out)
    ∧ out = (if String.eqb s "" then strftime (now w)
             else if contains "T" s then s
             else s +:+ "T00:00:00-08:00").
Proof.
  destruct s as [|c s].
  - exists (strftime (now w)). split; [done|].
    split; [apply strftime_has_time|].
    split; [apply format_date_with_time, strftime_has_time | done].
  - unfold format_date at 1. cbn [truthy negb py_in mbind result_bind String.eqb].
    destruct (contains "T" (String c s)) eqn:HT.
    + exists (String c s). split; [done|]. split; [done|].
      split; [by apply format_date_with_time | done].
    + exists (String c s +:+ "T00:00:00-08:00").
      assert (contains "T" (String c s +:+ "T00:00:00-08:00") = true) as Hout.
      { apply (contains_middle "T" (String c s) "00:00:00-08:00"). }
      split; [done|]. split; [done|].
      split; [by apply format_date_with_time | done].
Qed.

(** ** The sanitized name of generate_screenshot_urls *)

Lemma str_map_fixed f p (s : string) :
  (∀ c, p c = true → f c = c) → str_forall p s = true → str_map f s = s.
Proof.
  intros Hf. induction s as [|c s IH]; [done|]. simpl.
  intros [Hc Hs]%andb_true_iff. by rewrite (Hf c Hc), IH.
Qed.

(** X2: the sanitized name consists of safe characters only (word
    characters, '-', '_' and '.'), a name of safe characters is its own
    sanitized name, and sanitizing twice is sanitizing once. *)
Theorem sanitize_safe_idempotent (name : string) :
  str_forall is_safe (sanitize name) = true
  ∧ (str_forall is_safe name = true → sanitize name = name)
  ∧ sanitize (sanitize name) = sanitize name.
Proof.
  assert (str_forall is_safe (sanitize name) = true) as Hsafe.
  { induction name as [|c name IH]; [done|].
    unfold sanitize in *. cbn [str_map str_forall]. rewrite IH, andb_true_r.
    destruct (is_safe c) eqn:Hc; [done | reflexivity]. }
  assert (∀ s, str_forall is_safe s = true → sanitize s = s) as Hfixed.
  { intros s. apply str_map_fixed. by intros c ->. }
  split; [done|]. split; [apply Hfixed | by apply Hfixed].
Qed.

(** ** The default sourceURL of convert_repository *)

Lemma contains_slash_cons c (p : string) :
  contains "/" (String c p) = Ascii.eqb c "/" || contains "/" p.
Proof.
  cbn [contains]. f_equal. apply Bool.eq_iff_eq_true.
  rewrite prefix_spec, Ascii.eqb_eq. split.
  - intros [post H]. rewrite append_cons in H. congruence.
  - intros ->. by exists p.
Qed.

Lemma basename_no_slash (p : string) : contains "/" (basename p) = false.
Proof.
  induction p as [|c p IH]; [done|]. cbn [basename].
  destruct (contains "/" p) eqn:Hp; [done|].
  destruct (Ascii.eqb c "/") eqn:Hc; [done|].
  by rewrite contains_slash_cons, Hc, Hp.
Qed.

(** X3: when the input document has no [sourceURL], the written one
    gets "https://example.com/" followed by the part of the output path
    after its last "/": the path is some directory part, empty or ending
    in "/", followed by that part, which has no "/" in it. *)
Theorem default_source_url_is_last_component (t : timeline) d output_file analyze c :
  d !! "sourceURL" = None →
  convert_repository t (JObj d) output_file analyze = Ok c →
  ∃ dir file,
    output_file = dir +:+ file
    ∧ contains "/" file = false
    ∧ (dir = "" ∨ ∃ dir', dir = dir' +:+ "/")
    ∧ output c !! "sourceURL" = Some (JStr ("https://example.com/" +:+ file)).
Proof.
  intros Hnone Hc.
  destruct (convert_repository_inv _ _ _ _ _ Hc) as (d' & apps & Hd & Hiter & Hobj).
  inv_ok Hd. rewrite (convert_repository_eq _ _ _ _ _ Hiter Hobj) in Hc. inv_ok Hc.
  cbn [output]. rewrite updated_document_sourceURL, Hnone. cbn [default].
  assert (∀ p, ∃ dir, p = dir +:+ basename p
                      ∧ (dir = "" ∨ ∃ dir', dir = dir' +:+ "/")) as Hsplit.
  { clear. induction p as [|ch p (dir & IH & Hdir)]; [exists ""; by split; [|left]|].
    cbn [basename]. destruct (contains "/" p) eqn:Hp.
    - exists (String ch dir). split; [by rewrite append_cons, <- IH|].
      destruct Hdir as [-> | [dir' ->]].
      + rewrite append_nil_l in IH. rewrite IH, basename_no_slash in Hp. discriminate.
      + right. exists (String ch dir'). by rewrite append_cons.
    - destruct (Ascii.eqb ch "/") eqn:Hch.
      + apply Ascii.eqb_eq in Hch as ->. exists "/". split; [done|].
        right. by exists "".
      + exists "". split; [done|]. by left. }
  destruct (Hsplit output_file) as (dir & Hpath & Hdir).
  exists dir, (basename output_file).
  split; [done|]. split; [apply basename_no_slash|]. split; done.
Qed.

Lemma default_source_url_is_last_component_witness :
  ∃ c dir file,
    convert_repository (λ _, example_world) foo_catalog "out/dir/repo.json" false = Ok c
    ∧ "out/dir/repo.json" = dir +:+ file
    ∧ contains "/" file = false
    ∧ (dir = "" ∨ ∃ dir', dir = dir' +:+ "/")
    ∧ output c !! "sourceURL" = Some (JStr ("https://example.com/" +:+ file)).
Proof.
  destruct (convert_repository_returns (λ _, example_world) foo_catalog
              "out/dir/repo.json" false) as [c Hc]; [evaluate|].
  destruct (default_source_url_is_last_component (λ _, example_world)
              (dict_literal [ ("apps", JArr [JObj foo_app]) ])
              "out/dir/repo.json" false c)
    as (dir & file & Hpath & Hfile & Hdir & Hurl); [evaluate | exact Hc |].
  exists c, dir, file. split; [exact Hc|]. split; [exact Hpath|].
  split; [exact Hfile|]. split; [exact Hdir | exact Hurl].
Defined.

(** ** The fields of a converted record *)

Lemma convert_app_eq w app analyze :
  convert_app_to_altstore_format w app analyze
  = if negb (truthy (JObj app)) || negb (truthy (py_get app "name"))
       || negb (truthy (py_get app "bundleIdentifier"))
    then Ok None
    else
      a2 ← resolve_screenshots app (with_subtitle app);
      a3 ← build_versions w app a2;
      out ← attach_permissions w analyze a3;
      Ok (Some out).
Proof.
  unfold convert_app_to_altstore_format, with_subtitle, base_record.
  destruct (negb (truthy (JObj app)) || negb (truthy (py_get app "name"))
            || negb (truthy (py_get app "bundleIdentifier"))); [done|].
  cbv zeta. destruct (truthy (py_get app "subtitle")) eqn:Hsub; [| done].
  destruct (truthy_get_Some _ _ Hsub) as (subtitle & Hs & _).
  unfold py_getitem, py_get. by rewrite Hs.
Qed.

Lemma convert_app_stages w app analyze out :
  convert_app_to_altstore_format w app analyze = Ok (Some out) →
  ∃ a2 a3,
    resolve_screenshots app (with_subtitle app) = Ok a2
    ∧ build_versions w app a2 = Ok a3
    ∧ attach_permissions w analyze a3 = Ok out.
Proof.
  rewrite convert_app_eq. intros H.
  destruct (negb (truthy (JObj app)) || negb (truthy (py_get app "name"))
            || negb (truthy (py_get app "bundleIdentifier"))); [discriminate|].
  inv_bind H as a2 H2. inv_bind H as a3 H3. inv_bind H as a4 H4. inv_ok H.
  by exists a2, a3.
Qed.

Lemma with_subtitle_lookup app k :
  with_subtitle app !! k
  = if String.eqb k "subtitle"
    then (if truthy (py_get app "subtitle") then app !! "subtitle" else None)
    else base_record app !! k.
Proof.
  unfold with_subtitle. destruct (String.eqb k "subtitle") eqn:Hk.
  - apply String.eqb_eq in Hk as ->.
    destruct (truthy (py_get app "subtitle")) eqn:Hsub.
    + rewrite lookup_insert_eq.
      destruct (truthy_get_Some _ _ Hsub) as (subtitle & Hs & _).
      unfold py_get. by rewrite Hs.
    + vm_compute. reflexivity.
  - apply String.eqb_neq in Hk.
    destruct (truthy (py_get app "subtitle")); [by rewrite lookup_insert_ne | done].
Qed.

Lemma base_record_lookup app k :
  base_record app !! k
  = if String.eqb k "name" then Some (py_get_default app "name" (JStr ""))
    else if String.eqb k "bundleIdentifier"
         then Some (py_get_default app "bundleIdentifier" (JStr ""))
    else if String.eqb k "developerName"
         then Some (py_get_default app "developerName" (JStr ""))
    else if String.eqb k "localizedDescription"
         then Some (py_get_default app "localizedDescription" (JStr ""))
    else if String.eqb k "iconURL" then Some (py_get_default app "iconURL" (JStr ""))
    else if String.eqb k "tintColor"
         then Some (py_get_default app "tintColor" (JStr "FFC300"))
    else None.
Proof.
  unfold base_record, dict_literal. cbn [foldl fst snd].
  repeat match goal with
         | |- context [String.eqb k ?key] =>
             destruct (String.eqb_spec k key) as [->|?];
             [ rewrite ?lookup_insert_ne by done; by rewrite lookup_insert_eq |]
         end.
  rewrite !lookup_insert_ne by done. apply lookup_empty.
Qed.

(** The lookup of a key that the later stages do not write. *)
Lemma converted_lookup_base w app analyze out k :
  convert_app_to_altstore_format w app analyze = Ok (Some out) →
  k ≠ "screenshots" → k ≠ "versions" → k ≠ "appPermissions" →
  out !! k = with_subtitle app !! k.
Proof.
  intros H Hs Hv Hp. apply convert_app_stages in H as (a2 & a3 & H2 & H3 & H4).
  rewrite (attach_permissions_frame _ _ _ _ H4) by done.
  rewrite (build_versions_frame _ _ _ _ H3) by done.
  by rewrite (resolve_screenshots_frame _ _ _ H2).
Qed.

Lemma build_versions_sets w app a a' :
  build_versions w app a = Ok a' → ∃ versions, a' = <["versions" := versions]> a.
Proof.
  unfold build_versions. intros H.
  destruct (has_key app "versions"); simpl in H.
  - inv_bind H as versions Hversions. inv_ok H. by eexists.
  - inv_bind H as date Hdate. inv_bind H as name_lower Hlower.
    inv_bind H as min_os Hmin. inv_ok H. by eexists.
Qed.

Lemma converted_identity_fields w app analyze out :
  convert_app_to_altstore_format w app analyze = Ok (Some out) →
  out !! "name" = app !! "name"
  ∧ out !! "bundleIdentifier" = app !! "bundleIdentifier"
  ∧ out !! "developerName" = Some (default (JStr "") (app !! "developerName"))
  ∧ out !! "localizedDescription" = Some (default (JStr "") (app !! "localizedDescription"))
  ∧ out !! "iconURL" = Some (default (JStr "") (app !! "iconURL"))
  ∧ out !! "tintColor" = Some (default (JStr "FFC300") (app !! "tintColor")).
Proof.
  intros H.
  destruct (convert_app_inv _ _ _ _ H) as (Hname & Hbundle & _).
  destruct (truthy_get_Some _ _ Hname) as (name & Hn & _).
  destruct (truthy_get_Some _ _ Hbundle) as (bundle & Hb & _).
  rewrite !(converted_lookup_base _ _ _ _ _ H) by done.
  rewrite !with_subtitle_lookup, !base_record_lookup. cbn.
  unfold py_get_default. by rewrite Hn, Hb.
Qed.

Lemma converted_has_versions w app analyze out :
  convert_app_to_altstore_format w app analyze = Ok (Some out) →
  is_Some (out !! "versions").
Proof.
  intros H. apply convert_app_stages in H as (a2 & a3 & H2 & H3 & H4).
  rewrite (attach_permissions_frame _ _ _ _ H4) by done.
  destruct (build_versions_sets _ _ _ _ H3) as [versions ->].
  rewrite lookup_insert_eq. by eexists.
Qed.

(** X4: a converted record carries the input's name, bundle identifier,
    developer name, description and icon URL as they are, an absent one
    of the last three being the empty string, and its tint color is the
    input's, "FFC300" when the input has none. *)
Theorem identity_fields_copied w app analyze out :
  convert_app_to_altstore_format w app analyze = Ok (Some out) →
  out !! "name" = app !! "name"
  ∧ out !! "bundleIdentifier" = app !! "bundleIdentifier"
  ∧ out !! "developerName" = Some (default (JStr "") (app !! "developerName"))
  ∧ out !! "localizedDescription" = Some (default (JStr "") (app !! "localizedDescription"))
  ∧ out !! "iconURL" = Some (default (JStr "") (app !! "iconURL"))
  ∧ out !! "tintColor" = Some (default (JStr "FFC300") (app !! "tintColor")).
Proof. apply converted_identity_fields. Qed.

Lemma identity_fields_copied_witness :
  foo_converted example_world !! "tintColor" = Some (JStr "FFC300")
  ∧ foo_converted example_world !! "name" = Some (JStr "Foo").
Proof.
  destruct (identity_fields_copied example_world foo_app false (foo_converted example_world))
    as (Hname & _ & _ & _ & _ & Htint); [evaluate|].
  rewrite Hname, Htint. split; evaluate.
Defined.

(** X5: a converted record has no key besides name, bundleIdentifier,
    developerName, localizedDescription, iconURL, tintColor, subtitle,
    screenshots, versions and appPermissions (whatever else the input
    holds is dropped), and it always has the first six and versions. *)
Theorem converted_record_keys w app analyze out :
  convert_app_to_altstore_format w app analyze = Ok (Some out) →
  (∀ k, is_Some (out !! k) → k ∈ output_keys)
  ∧ (∀ k, k ∈ ["name"; "bundleIdentifier"; "developerName"; "localizedDescription";
               "iconURL"; "tintColor"; "versions"] → is_Some (out !! k)).
Proof.
  intros H. split.
  - intros k Hk.
    destruct (decide (k ∈ output_keys)) as [|Hnot]; [done|]. exfalso.
    unfold output_keys in Hnot. rewrite !not_elem_of_cons in Hnot.
    destruct Hnot as (? & ? & ? & ? & ? & ? & ? & ? & ? & ? & _).
    rewrite (converted_lookup_base _ _ _ _ _ H) in Hk by done.
    rewrite with_subtitle_lookup, base_record_lookup in Hk.
    repeat match type of Hk with
           | context [String.eqb k ?key] =>
               rewrite (proj2 (String.eqb_neq k key)) in Hk by done
           end.
    by destruct Hk.
  - intros k Hk. rewrite !elem_of_cons in Hk.
    destruct (converted_identity_fields w app analyze out H)
      as (Hn & Hb & Hd & Hl & Hi & Ht).
    destruct (convert_app_inv _ _ _ _ H) as (Hname & Hbundle & _).
    destruct (truthy_get_Some _ _ Hname) as (name & Hsn & _).
    destruct (truthy_get_Some _ _ Hbundle) as (bundle & Hsb & _).
    destruct Hk as [-> | [-> | [-> | [-> | [-> | [-> | [-> | Hk]]]]]]].
    + rewrite Hn, Hsn. by eexists.
    + rewrite Hb, Hsb. by eexists.
    + rewrite Hd. by eexists.
    + rewrite Hl. by eexists.
    + rewrite Hi. by eexists.
    + rewrite Ht. by eexists.
    + by eapply converted_has_versions.
    + by apply elem_of_nil in Hk.
Qed.

Lemma converted_record_keys_witness :
  foo_converted example_world !! "downloadURL" = None
  ∧ is_Some (foo_converted example_world !! "versions").
Proof.
  destruct (converted_record_keys example_world foo_app false (foo_converted example_world))
    as [Honly Halways]; [evaluate|].
  split.
  - destruct (foo_converted example_world !! "downloadURL") as [v|] eqn:Hv; [| reflexivity].
    assert ("downloadURL" ∈ output_keys) as Hin by (apply Honly; by eexists).
    unfold output_keys in Hin. rewrite !elem_of_cons in Hin.
    exfalso. destruct Hin as [H|[H|[H|[H|[H|[H|[H|[H|[H|[H|H]]]]]]]]]];
      try discriminate H. by apply elem_of_nil in H.
  - apply Halways. rewrite !elem_of_cons. tauto.
Defined.

(** X6: a converted record has a [subtitle] exactly when the input's
    subtitle is non-empty, and then it is the input's; an empty or null
    subtitle is dropped. *)
Theorem subtitle_kept_when_nonempty w app analyze out :
  convert_app_to_altstore_format w app analyze = Ok (Some out) →
  out !! "subtitle"
  = if truthy (py_get app "subtitle") then app !! "subtitle" else None.
Proof.
  intros H. rewrite (converted_lookup_base _ _ _ _ _ H) by done.
  by rewrite with_subtitle_lookup.
Qed.

Lemma subtitle_kept_when_nonempty_witness :
  empty_versions_converted !! "subtitle" = None.
Proof.
  rewrite (subtitle_kept_when_nonempty example_world empty_versions_app false
             empty_versions_converted); evaluate.
Defined.

(** ** The screenshots of a converted record *)

Lemma resolve_screenshots_cases app a a' :
  resolve_screenshots app a = Ok a' →
  a' = a ∨ ∃ v, truthy v = true ∧ a' = <["screenshots" := v]> a.
Proof.
  unfold resolve_screenshots, present_and_truthy. intros H.
  destruct (app !! "screenshotURLs") as [urls|] eqn:Hurls;
    [destruct (truthy urls) eqn:Htu|].
  1: { inv_bind H as v Hv. apply py_getitem_Ok in Hv. inv_ok H.
       right. exists urls. split; [done | congruence]. }
  all: destruct (app !! "screenshots") as [shots|] eqn:Hshots;
    [destruct (truthy shots) eqn:Hts|].
  1,4: inv_bind H as v Hv; apply py_getitem_Ok in Hv; inv_ok H;
    right; exists shots; split; [done | congruence].
  all: inv_bind H as has_icons Hicons; inv_bind H as base_url Hbase;
    destruct base_url as [[|c base]|]; try (inv_ok H; by left);
    inv_bind H as name Hname; inv_bind H as fallback Hfallback;
    destruct (truthy (JArr fallback)) eqn:Hf; inv_ok H; [right; by eexists | by left].
Qed.

Lemma resolve_screenshots_existing app a :
  (∀ urls, app !! "screenshotURLs" = Some urls → truthy urls = true →
     resolve_screenshots app a = Ok (<["screenshots" := urls]> a))
  ∧ (∀ shots, present_and_truthy app "screenshotURLs" = false →
       app !! "screenshots" = Some shots → truthy shots = true →
       resolve_screenshots app a = Ok (<["screenshots" := shots]> a)).
Proof.
  unfold resolve_screenshots, present_and_truthy, py_getitem. split.
  - intros urls -> ->. done.
  - intros shots -> -> ->. done.
Qed.

Lemma resolve_screenshots_fallback_general app a icon :
  present_and_truthy app "screenshotURLs" = false →
  present_and_truthy app "screenshots" = false →
  py_get_default app "iconURL" (JStr "") = JStr icon →
  resolve_screenshots app a
  = if contains "serve/icons" icon
    then match split_head "/serve/icons/" icon with
         | EmptyString => Ok a
         | String _ _ as base =>
             match app !! "name" with
             | Some (JStr name) => Ok (<["screenshots" := JArr [fallback_url base name]]> a)
             | Some _ => Raise TypeError
             | None => Raise KeyError
             end
         end
    else Ok a.
Proof.
  unfold resolve_screenshots. intros -> -> ->.
  cbn [py_in py_split_head mbind result_bind].
  destruct (contains "serve/icons" icon); cbn [mbind result_bind]; [| done].
  destruct (split_head "/serve/icons/" icon) as [|c base]; [done|].
  unfold py_getitem. destruct (app !! "name") as [[]|]; done.
Qed.

Lemma converted_screenshots w app analyze out a2 :
  convert_app_to_altstore_format w app analyze = Ok (Some out) →
  resolve_screenshots app (with_subtitle app) = Ok a2 →
  out !! "screenshots" = a2 !! "screenshots".
Proof.
  intros H H2. apply convert_app_stages in H as (a2' & a3 & H2' & H3 & H4).
  rewrite H2 in H2'. inv_ok H2'.
  rewrite (attach_permissions_frame _ _ _ _ H4) by done.
  by rewrite (build_versions_frame _ _ _ _ H3).
Qed.

(** X7: the screenshots of a converted record come from the input's
    [screenshotURLs] when that is non-empty, even if [screenshots] is
    there too; otherwise from the input's [screenshots] when that is
    non-empty; and a [screenshots] field in the output is never empty. *)
Theorem screenshots_resolution_order w app analyze out :
  convert_app_to_altstore_format w app analyze = Ok (Some out) →
  (∀ urls, app !! "screenshotURLs" = Some urls → truthy urls = true →
     out !! "screenshots" = Some urls)
  ∧ (∀ shots, present_and_truthy app "screenshotURLs" = false →
       app !! "screenshots" = Some shots → truthy shots = true →
       out !! "screenshots" = Some shots)
  ∧ (∀ v, out !! "screenshots" = Some v → truthy v = true).
Proof.
  intros H.
  destruct (resolve_screenshots_existing app (with_subtitle app)) as [Hurls Hshots].
  split; [| split].
  - intros urls Hu Ht.
    rewrite (converted_screenshots _ _ _ _ _ H (Hurls urls Hu Ht)).
    by rewrite lookup_insert_eq.
  - intros shots Hno Hs Ht.
    rewrite (converted_screenshots _ _ _ _ _ H (Hshots shots Hno Hs Ht)).
    by rewrite lookup_insert_eq.
  - intros v Hv.
    destruct (convert_app_stages _ _ _ _ H) as (a2 & a3 & H2 & _).
    rewrite (converted_screenshots _ _ _ _ _ H H2) in Hv.
    destruct (resolve_screenshots_cases _ _ _ H2) as [-> | (v' & Ht & ->)].
    + rewrite with_subtitle_lookup, base_record_lookup in Hv. discriminate.
    + rewrite lookup_insert_eq in Hv. congruence.
Qed.

Lemma screenshots_resolution_order_witness :
  ∃ out,
    convert_app_to_altstore_format example_world screenshots_app false = Ok (Some out)
    ∧ out !! "screenshots" = Some (JArr [JStr "https://h/1.png"]).
Proof.
  destruct (convert_app_returns example_world screenshots_app false) as [out Hout];
    [evaluate | evaluate | evaluate |].
  exists out. split; [exact Hout|].
  destruct (screenshots_resolution_order _ _ _ _ Hout) as (Hurls & _ & _).
  apply Hurls; evaluate.
Defined.

Lemma split_head_spec (sep s : string) :
  (contains sep s = false → split_head sep s = s)
  ∧ (contains sep s = true → ∃ rest, s = split_head sep s +:+ sep +:+ rest).
Proof.
  induction s as [|c s [IHno IHyes]].
  - cbn [contains split_head]. rewrite orb_false_r.
    destruct (String.prefix sep "") eqn:Hp; split; try done.
    intros _. apply prefix_spec in Hp as [post Hp]. exists post.
    destruct sep; [done | discriminate].
  - cbn [contains split_head].
    destruct (String.prefix sep (String c s)) eqn:Hp; cbn [orb].
    + split; [done|]. intros _. apply prefix_spec in Hp as [post Hp]. by exists post.
    + split.
      * intros Hno. by rewrite (IHno Hno).
      * intros Hyes. destruct (IHyes Hyes) as [rest Hrest].
        exists rest. by rewrite append_cons, <- Hrest.
Qed.

(** X8: when the input has no usable screenshot field and its icon URL
    is a string, the converted record gets a screenshot exactly when the
    icon URL contains "serve/icons" and the part of it before the first
    "/serve/icons/" is not empty; that part is the whole icon URL when
    "/serve/icons/" does not occur in it.  The screenshot is then the one
    URL made of that part, "/serve/screenshots/", the name, "/", the
    sanitized name and "-0.png". *)
Theorem screenshot_fallback_from_icon w app analyze out icon :
  convert_app_to_altstore_format w app analyze = Ok (Some out) →
  present_and_truthy app "screenshotURLs" = false →
  present_and_truthy app "screenshots" = false →
  py_get_default app "iconURL" (JStr "") = JStr icon →
  let base := split_head "/serve/icons/" icon in
  (contains "/serve/icons/" icon = false → base = icon)
  ∧ (contains "/serve/icons/" icon = true → ∃ rest, icon = base +:+ "/serve/icons/" +:+ rest)
  ∧ (contains "serve/icons" icon = false ∨ base = "" → out !! "screenshots" = None)
  ∧ (contains "serve/icons" icon = true → base ≠ "" →
     ∃ name, app !! "name" = Some (JStr name)
             ∧ out !! "screenshots" = Some (JArr [fallback_url base name])).
Proof.
  intros H Hurls Hshots Hicon base.
  destruct (split_head_spec "/serve/icons/" icon) as [Hwhole Hsplit].
  split; [done|]. split; [done|].
  destruct (convert_app_stages _ _ _ _ H) as (a2 & a3 & H2 & _).
  rewrite (converted_screenshots _ _ _ _ _ H H2).
  rewrite (resolve_screenshots_fallback_general _ _ _ Hurls Hshots Hicon) in H2.
  fold base in H2.
  assert (with_subtitle app !! "screenshots" = None) as Hnone.
  { by rewrite with_subtitle_lookup, base_record_lookup. }
  split.
  - intros [Hno | Hempty].
    + rewrite Hno in H2. by inv_ok H2.
    + rewrite Hempty in H2. destruct (contains "serve/icons" icon); by inv_ok H2.
  - intros Hyes Hbase. rewrite Hyes in H2.
    destruct base as [|c base']; [done|].
    destruct (app !! "name") as [[| | | |name| |]|]; try discriminate.
    inv_ok H2. exists name. split; [done|]. by rewrite lookup_insert_eq.
Qed.

Lemma screenshot_fallback_from_icon_witness :
  ∃ out,
    convert_app_to_altstore_format example_world odd_icon_app false = Ok (Some out)
    ∧ out !! "screenshots"
      = Some (JArr [JStr ("https://x.test/observe/icons.png"
                          +:+ "/serve/screenshots/Odd/Odd-0.png")]).
Proof.
  destruct (convert_app_returns example_world odd_icon_app false) as [out Hout];
    [evaluate | evaluate | evaluate |].
  exists out. split; [exact Hout|].
  destruct (screenshot_fallback_from_icon example_world odd_icon_app false out
              "https://x.test/observe/icons.png" Hout)
    as (_ & _ & _ & Hurl); [evaluate | evaluate | evaluate |].
  destruct Hurl as (name & Hname & Hshot); [evaluate | discriminate |].
  assert (odd_icon_app !! "name" = Some (JStr "Odd")) as Hn by evaluate.
  rewrite Hn in Hname. injection Hname as <-. rewrite Hshot. evaluate.
Defined.

(** ** The permission analysis of a converted record *)

Lemma format_date_world w w' date_str :
  now w = now w' → (∀ v, py_repr w v = py_repr w' v) →
  format_date w date_str = format_date w' date_str.
Proof.
  intros Hnow Hrepr. unfold format_date, py_format. rewrite Hnow.
  destruct (negb (truthy date_str)); [done|].
  destruct (py_in "T" date_str) as [[]|]; cbn [mbind result_bind]; try done.
  destruct date_str; by rewrite ?Hrepr.
Qed.

Lemma attach_permissions_off w a : attach_permissions w false a = Ok a.
Proof. done. Qed.

(** X9: with the analysis off, the conversion of a record consults
    neither the network nor the tools (two worlds with the same clock and
    the same rendering of values give the same result) and the converted
    record has no [appPermissions]. *)
Theorem no_analysis_without_flag w w' app :
  now w = now w' →
  (∀ v, py_repr w v = py_repr w' v) →
  convert_app_to_altstore_format w app false = convert_app_to_altstore_format w' app false
  ∧ ∀ out, convert_app_to_altstore_format w app false = Ok (Some out) →
           out !! "appPermissions" = None.
Proof.
  intros Hnow Hrepr. split.
  - rewrite !convert_app_eq.
    destruct (negb (truthy (JObj app)) || negb (truthy (py_get app "name"))
              || negb (truthy (py_get app "bundleIdentifier"))); [done|].
    destruct (resolve_screenshots app (with_subtitle app)) as [a2|e];
      cbn [mbind result_bind]; [| done].
    unfold build_versions.
    by rewrite (format_date_world w w' _ Hnow Hrepr).
  - intros out H.
    destruct (convert_app_stages _ _ _ _ H) as (a2 & a3 & H2 & H3 & H4).
    rewrite attach_permissions_off in H4. inv_ok H4.
    rewrite (build_versions_frame _ _ _ _ H3) by done.
    rewrite (resolve_screenshots_frame _ _ _ H2) by done.
    by rewrite with_subtitle_lookup, base_record_lookup.
Qed.

Lemma no_analysis_without_flag_witness :
  convert_app_to_altstore_format example_world foo_app false
  = convert_app_to_altstore_format signed_world foo_app false.
Proof.
  apply (no_analysis_without_flag example_world signed_world foo_app);
    [evaluate | by intros v].
Defined.

Lemma clean_permissions_lookup p k x :
  clean_permissions p !! k = Some x →
  (k = "entitlements" ∧ x = entitlements_json p ∨ k = "privacy" ∧ x = privacy_json p)
  ∧ truthy x = true.
Proof.
  unfold clean_permissions.
  destruct (truthy (entitlements_json p)) eqn:He;
    destruct (truthy (privacy_json p)) eqn:Hp; intros H.
  - destruct (decide (k = "privacy")) as [->|Hk].
    + rewrite lookup_insert_eq in H. inv_ok H. split; [by right | done].
    + rewrite lookup_insert_ne in H by done.
      destruct (decide (k = "entitlements")) as [->|Hk'].
      * rewrite lookup_insert_eq in H. inv_ok H. split; [by left | done].
      * rewrite lookup_insert_ne in H by done. by rewrite lookup_empty in H.
  - destruct (decide (k = "entitlements")) as [->|Hk'].
    + rewrite lookup_insert_eq in H. inv_ok H. split; [by left | done].
    + rewrite lookup_insert_ne in H by done. by rewrite lookup_empty in H.
  - destruct (decide (k = "privacy")) as [->|Hk].
    + rewrite lookup_insert_eq in H. inv_ok H. split; [by right | done].
    + rewrite lookup_insert_ne in H by done. by rewrite lookup_empty in H.
  - by rewrite lookup_empty in H.
Qed.

Lemma attach_permissions_cases w analyze a a' :
  attach_permissions w analyze a = Ok a' →
  a' = a
  ∨ analyze = true
    ∧ ∃ url,
        first_download_url a = Some url
        ∧ truthy url = true
        ∧ truthy (JObj (clean_permissions (download_and_analyze_ipa w url))) = true
        ∧ a' = <["appPermissions" :=
                   JObj (clean_permissions (download_and_analyze_ipa w url))]> a.
Proof.
  unfold attach_permissions. intros H.
  destruct analyze; [| inv_ok H; by left].
  inv_bind H as versions Hversions. apply py_getitem_Ok in Hversions.
  destruct (truthy versions); [| inv_ok H; by left].
  inv_bind H as first Hfirst. inv_bind H as url Hurl.
  destruct (truthy url) eqn:Htruthy; [| inv_ok H; by left].
  destruct (truthy (entitlements_json (download_and_analyze_ipa w url))
            || truthy (privacy_json (download_and_analyze_ipa w url)));
    [| inv_ok H; by left].
  fold (clean_permissions (download_and_analyze_ipa w url)) in H.
  destruct (truthy (JObj (clean_permissions (download_and_analyze_ipa w url)))) eqn:Hclean;
    [| inv_ok H; by left].
  inv_ok H. right. split; [done|]. exists url. repeat split; try done.
  unfold first_download_url. rewrite Hversions, Hfirst.
  destruct first; simpl in Hurl; try discriminate. by inv_ok Hurl.
Qed.

(** X10: a converted record has [appPermissions] only if the analysis
    was requested and the first version entry has a non-empty download
    URL; its value is then an object made from the analysis of that URL
    alone, with no key besides [entitlements] and [privacy], at least one
    of them, and neither of them empty. *)
Theorem app_permissions_shape w app analyze out v :
  convert_app_to_altstore_format w app analyze = Ok (Some out) →
  out !! "appPermissions" = Some v →
  analyze = true
  ∧ ∃ url,
      first_download_url out = Some url
      ∧ truthy url = true
      ∧ v = JObj (clean_permissions (download_and_analyze_ipa w url))
      ∧ clean_permissions (download_and_analyze_ipa w url) ≠ ∅
      ∧ ∀ k x, clean_permissions (download_and_analyze_ipa w url) !! k = Some x →
               (k = "entitlements" ∨ k = "privacy") ∧ truthy x = true.
Proof.
  intros H Hv.
  destruct (convert_app_stages _ _ _ _ H) as (a2 & a3 & H2 & H3 & H4).
  destruct (attach_permissions_cases _ _ _ _ H4)
    as [-> | (Han & url & Hurl & Htruthy & Hclean & ->)].
  - rewrite (build_versions_frame _ _ _ _ H3) in Hv by done.
    rewrite (resolve_screenshots_frame _ _ _ H2) in Hv by done.
    by rewrite with_subtitle_lookup, base_record_lookup in Hv.
  - split; [done|]. exists url.
    rewrite lookup_insert_eq in Hv. inv_ok Hv.
    split; [| split; [done | split; [done | split]]].
    + rewrite <- Hurl. apply first_download_url_frame. by rewrite lookup_insert_ne.
    + intros Hempty. rewrite Hempty in Hclean. discriminate.
    + intros k x Hk. destruct (clean_permissions_lookup _ _ _ Hk) as [[[-> _]|[-> _]] Ht];
        split; auto.
Qed.

Lemma app_permissions_shape_witness :
  ∃ url,
    first_download_url foo_signed_converted = Some url
    ∧ truthy url = true
    ∧ foo_signed_converted !! "appPermissions"
      = Some (JObj (clean_permissions (download_and_analyze_ipa signed_world url))).
Proof.
  destruct (app_permissions_shape signed_world foo_app true foo_signed_converted
              (JObj (dict_literal
                 [ ("entitlements",
                    JArr [ JStr "aps-environment"; JStr "get-task-allow";
                           JStr "keychain-access-groups" ]);
                   ("privacy",
                    JObj (dict_literal
                            [ ("NSCameraUsageDescription", JStr "Camera access");
                              ("NSFaceIDUsageDescription", JStr "Unlock") ])) ])))
    as (_ & url & Hurl & Htruthy & Hv & _); [evaluate | evaluate |].
  exists url. split; [exact Hurl|]. split; [exact Htruthy|].
  rewrite <- Hv. evaluate.
Defined.

(** ** Converting a converted record again *)

Lemma resolve_screenshots_fallback_ext app app' a :
  present_and_truthy app "screenshotURLs" = false →
  present_and_truthy app "screenshots" = false →
  present_and_truthy app' "screenshotURLs" = false →
  present_and_truthy app' "screenshots" = false →
  py_get_default app "iconURL" (JStr "") = py_get_default app' "iconURL" (JStr "") →
  app !! "name" = app' !! "name" →
  resolve_screenshots app a = resolve_screenshots app' a.
Proof.
  unfold resolve_screenshots, py_getitem. by intros -> -> -> -> -> ->.
Qed.

Lemma present_and_truthy_None (d : gmap string json) k :
  d !! k = None → present_and_truthy d k = false.
Proof. unfold present_and_truthy. by intros ->. Qed.

Lemma base_record_ext app app' :
  py_get_default app' "name" (JStr "") = py_get_default app "name" (JStr "") →
  py_get_default app' "bundleIdentifier" (JStr "")
  = py_get_default app "bundleIdentifier" (JStr "") →
  py_get_default app' "developerName" (JStr "")
  = py_get_default app "developerName" (JStr "") →
  py_get_default app' "localizedDescription" (JStr "")
  = py_get_default app "localizedDescription" (JStr "") →
  py_get_default app' "iconURL" (JStr "") = py_get_default app "iconURL" (JStr "") →
  py_get_default app' "tintColor" (JStr "FFC300")
  = py_get_default app "tintColor" (JStr "FFC300") →
  base_record app' = base_record app.
Proof. unfold base_record. by intros -> -> -> -> -> ->. Qed.

Lemma convert_app_again w w' app out :
  convert_app_to_altstore_format w app false = Ok (Some out) →
  convert_app_to_altstore_format w' out false = Ok (Some out).
Proof.
  intros H.
  destruct (convert_app_inv _ _ _ _ H) as (Hname & Hbundle & _).
  destruct (truthy_get_Some _ _ Hname) as (name & Hn & _).
  destruct (truthy_get_Some _ _ Hbundle) as (bundle & Hb & _).
  destruct (converted_identity_fields _ _ _ _ H) as (Fn & Fb & Fd & Fl & Fi & Ft).
  pose proof (converted_lookup_base _ _ _ _ "subtitle" H) as Fs.
  rewrite with_subtitle_lookup in Fs. cbn in Fs. specialize (Fs ltac:(done) ltac:(done) ltac:(done)).
  pose proof (converted_lookup_base _ _ _ _ "screenshotURLs" H) as Fu.
  rewrite with_subtitle_lookup, base_record_lookup in Fu. cbn in Fu.
  specialize (Fu ltac:(done) ltac:(done) ltac:(done)).
  destruct (convert_app_stages _ _ _ _ H) as (a2 & a3 & H2 & H3 & H4).
  rewrite attach_permissions_off in H4. inv_ok H4.
  destruct (build_versions_sets _ _ _ _ H3) as [versions Hv].
  assert (base_record out = base_record app) as Hbase.
  { apply base_record_ext; unfold py_get_default;
      rewrite ?Fn, ?Fb, ?Fd, ?Fl, ?Fi, ?Ft, ?Hn, ?Hb; done. }
  assert (with_subtitle out = with_subtitle app) as Hsub.
  { unfold with_subtitle, py_get. rewrite Hbase, Fs. unfold py_get.
    destruct (truthy (default JNull (app !! "subtitle"))) eqn:Hs;
      [by rewrite Hs | done]. }
  rewrite convert_app_eq.
  rewrite (convert_app_nonempty _ _ _ _ H).
  unfold py_get at 1 2. rewrite Fn, Fb, Hn, Hb.
  unfold py_get in Hname, Hbundle. rewrite Hn in Hname. rewrite Hb in Hbundle.
  cbn [default] in *. rewrite Hname, Hbundle. cbn [negb orb].
  rewrite Hsub.
  assert (resolve_screenshots out (with_subtitle app) = Ok a2) as ->.
  { destruct (resolve_screenshots_cases _ _ _ H2) as [-> | (v & Hv' & Ha2)].
    - assert (out !! "screenshots" = None) as Hnone.
      { rewrite (build_versions_frame _ _ _ _ H3) by done.
        by rewrite with_subtitle_lookup, base_record_lookup. }
      destruct (present_and_truthy app "screenshotURLs") eqn:Hpu.
      { unfold present_and_truthy in Hpu.
        destruct (app !! "screenshotURLs") as [urls|] eqn:Hurls; [| discriminate].
        destruct (resolve_screenshots_existing app (with_subtitle app)) as [Hex _].
        rewrite (Hex urls Hurls Hpu) in H2. injection H2 as H2.
        apply (f_equal (λ m : gmap string json, m !! "screenshots")) in H2.
        rewrite lookup_insert_eq, with_subtitle_lookup, base_record_lookup in H2.
        discriminate. }
      destruct (present_and_truthy app "screenshots") eqn:Hps.
      { unfold present_and_truthy in Hps.
        destruct (app !! "screenshots") as [shots|] eqn:Hshots; [| discriminate].
        destruct (resolve_screenshots_existing app (with_subtitle app)) as [_ Hex].
        rewrite (Hex shots Hpu Hshots Hps) in H2. injection H2 as H2.
        apply (f_equal (λ m : gmap string json, m !! "screenshots")) in H2.
        rewrite lookup_insert_eq, with_subtitle_lookup, base_record_lookup in H2.
        discriminate. }
      rewrite <- H2. apply resolve_screenshots_fallback_ext; try done.
      + by apply present_and_truthy_None.
      + by apply present_and_truthy_None.
      + unfold py_get_default. by rewrite Fi.
    - subst a2.
      destruct (resolve_screenshots_existing out (with_subtitle app)) as [_ Hex].
      apply Hex; [by apply present_and_truthy_None | | done].
      rewrite (build_versions_frame _ _ _ _ H3) by done. by rewrite lookup_insert_eq. }
  cbn [mbind result_bind].
  assert (build_versions w' out a2 = Ok out) as ->.
  { unfold build_versions.
    assert (out !! "versions" = Some versions) as Hversions
      by (by rewrite Hv, lookup_insert_eq).
    assert (has_key out "versions" = true) as -> by (apply has_key_true; eauto).
    cbn [negb]. unfold py_getitem. rewrite Hversions. cbn [mbind result_bind].
    by rewrite <- Hv. }
  done.
Qed.

(** X11: without the analysis, converting a converted record again
    returns that same record, whatever the clock shows by then. *)
Theorem convert_app_idempotent w w' app out :
  convert_app_to_altstore_format w app false = Ok (Some out) →
  convert_app_to_altstore_format w' out false = Ok (Some out).
Proof. apply convert_app_again. Qed.

Lemma convert_app_idempotent_witness :
  convert_app_to_altstore_format signed_world (foo_converted example_world) false
  = Ok (Some (foo_converted example_world)).
Proof.
  apply (convert_app_idempotent example_world signed_world foo_app). evaluate.
Defined.

(** ** Converting a written document again *)

Lemma converted_from_fixed t analyze i (apps : list json) :
  Forall (λ x, ∃ w r o, x = JObj o
                        ∧ convert_app_to_altstore_format w r analyze = Ok (Some o))
         (converted_from t analyze i apps).
Proof.
  revert i. induction apps as [|app rest IH]; intros i; [constructor|].
  cbn [converted_from].
  destruct (converted_record (t i) analyze app) as [c|] eqn:Hc; [| apply IH].
  constructor; [| apply IH].
  unfold converted_record in Hc. destruct app as [| | | | | |r]; try discriminate.
  destruct (convert_app_to_altstore_format (t i) r analyze) as [[o|]|] eqn:Ho;
    try discriminate.
  inv_ok Hc. by exists (t i), r, o.
Qed.

Lemma converted_from_again t' i (l : list json) :
  Forall (λ x, ∃ w r o, x = JObj o
                        ∧ convert_app_to_altstore_format w r false = Ok (Some o)) l →
  converted_from t' false i l = l
  ∧ skipped_from t' false i l = 0
  ∧ forallb is_obj l = true.
Proof.
  intros Hl. revert i. induction Hl as [|x l (w & r & o & -> & Ho) _ IH]; intros i; [done|].
  cbn [converted_from skipped_from converted_record forallb is_obj].
  rewrite (convert_app_again w (t' i) r o Ho).
  destruct (IH (S i)) as (-> & -> & ->). done.
Qed.

(** X12: without the analysis, running [convert_repository] on a
    document it wrote writes that same document again, to whatever output
    file, converting every record and skipping none. *)
Theorem convert_repository_idempotent (t t' : timeline) data output_file output_file' c :
  convert_repository t data output_file false = Ok c →
  convert_repository t' (JObj (output c)) output_file' false
  = Ok {| output := output c;
          converted_count := converted_count c;
          skipped_apps := 0 |}.
Proof.
  intros Hc.
  destruct (convert_repository_inv _ _ _ _ _ Hc) as (d & apps & -> & Hiter & Hobj).
  rewrite (convert_repository_eq _ _ _ _ _ Hiter Hobj) in Hc. inv_ok Hc.
  cbn [output converted_count].
  destruct (converted_from_again t' 1 _ (converted_from_fixed t false 1 apps))
    as (Hsame & Hskipped & Hobjs).
  rewrite (convert_repository_eq t' _ output_file' false (converted_from t false 1 apps));
    [| unfold py_get_default; by rewrite updated_document_apps | done].
  rewrite Hsame, Hskipped. f_equal. f_equal.
  unfold updated_document at 1.
  rewrite (insert_id (updated_document output_file d _) "apps")
    by apply updated_document_apps.
  assert (has_key (updated_document output_file d (converted_from t false 1 apps))
                  "identifier" = true) as ->.
  { apply has_key_true. rewrite updated_document_identifier. by eexists. }
  cbn [negb].
  assert (has_key (updated_document output_file d (converted_from t false 1 apps))
                  "sourceURL" = true) as ->.
  { apply has_key_true. rewrite updated_document_sourceURL. by eexists. }
  done.
Qed.

Lemma convert_repository_idempotent_witness :
  ∃ c,
    convert_repository (λ _, example_world) foo_catalog "out.json" false = Ok c
    ∧ convert_repository (λ _, signed_world) (JObj (output c)) "again.json" false
      = Ok {| output := output c; converted_count := converted_count c; skipped_apps := 0 |}.
Proof.
  destruct (convert_repository_returns (λ _, example_world) foo_catalog "out.json" false)
    as [c Hc]; [evaluate|].
  exists c. split; [exact Hc|].
  apply (convert_repository_idempotent (λ _, example_world) (λ _, signed_world)
           foo_catalog "out.json" "again.json" c Hc).
Defined.

(** ** What the analysis of an archive reports *)

Lemma extract_codesign_known w run e :
  e ∈ extract_entitlements_with_codesign w run → known_entitlement e = true.
Proof.
  unfold extract_entitlements_with_codesign.
  destruct (tool_plist w run) as [[]|]; rewrite ?recognized_keys_elem, ?elem_of_nil; tauto.
Qed.

Lemma extract_provision_known w run e :
  e ∈ extract_mobileprovision_with_security w run → known_entitlement e = true.
Proof.
  unfold extract_mobileprovision_with_security.
  destruct (tool_plist w run) as [[|plist_data|]|]; rewrite ?elem_of_nil; try tauto.
  destruct (plist_lookup "Entitlements" plist_data) as [[]|];
    rewrite ?recognized_keys_elem, ?elem_of_nil; tauto.
Qed.

(** X13: whatever the download and the inspection run into, every
    entitlement [download_and_analyze_ipa] reports is a key of the static
    entitlement dictionary. *)
Theorem reported_entitlements_known w url e :
  e ∈ entitlements (download_and_analyze_ipa w url) → known_entitlement e = true.
Proof.
  unfold download_and_analyze_ipa.
  destruct (http_get w url) as [| | | |[|z]]; cbn [entitlements empty_permissions];
    try (by rewrite elem_of_nil).
  unfold analyze_ipa_file.
  assert (∀ merged,
            merged = extract_entitlements_with_codesign w (codesign_run z)
            ∨ merged = add_new (extract_entitlements_with_codesign w (codesign_run z))
                         (extract_mobileprovision_with_security w (security_run z)) →
            e ∈ merged → known_entitlement e = true) as Hmerged.
  { intros merged [-> | ->]; [apply extract_codesign_known|].
    rewrite add_new_elem.
    intros [H | H]; [by eapply extract_codesign_known | by eapply extract_provision_known]. }
  repeat match goal with
         | |- context [match ?x with _ => _ end] => destruct x
         end; cbn [entitlements empty_permissions];
    rewrite ?sorted_set_elem, ?elem_of_nil; try tauto;
    apply Hmerged; auto.
Qed.

Lemma reported_entitlements_known_witness :
  known_entitlement "aps-environment" = true.
Proof.
  apply (reported_entitlements_known signed_world (JStr "https://h/f.ipa")).
  replace (entitlements (download_and_analyze_ipa signed_world (JStr "https://h/f.ipa")))
    with ["aps-environment"; "get-task-allow"; "keychain-access-groups"] by evaluate.
  apply list_elem_of_here.
Defined.

Lemma labels_nonblank k label :
  permission_mappings !! k = Some label → nonblank label = true.
Proof.
  revert k label.
  assert (map_Forall (λ _ label, nonblank label = true) permission_mappings) as H.
  { apply (bool_decide_unpack _). vm_compute. exact I. }
  exact H.
Qed.

Lemma privacy_text_nonblank k label description :
  permission_mappings !! k = Some label → nonblank (privacy_text label description) = true.
Proof.
  intros Hl. unfold privacy_text.
  destruct description as [text| |]; try by eapply labels_nonblank.
  destruct (nonblank text) eqn:Ht; [done | by eapply labels_nonblank].
Qed.

Lemma privacy_of_items_lookup items acc k v :
  privacy_of_items items acc !! k = Some v →
  acc !! k = Some v
  ∨ ∃ label description,
      permission_mappings !! k = Some label
      ∧ (k, description) ∈ items
      ∧ v = privacy_text label description.
Proof.
  unfold privacy_of_items. revert acc.
  induction items as [|[key description] items IH]; intros acc H; [by left|].
  cbn [foldl fst snd] in H.
  destruct (IH _ H) as [Hacc | (label & d & Hl & Hin & Hv)].
  - destruct (permission_mappings !! key) as [label|] eqn:Hlabel; [| by left].
    assert (<[key := privacy_text label description]> acc !! k = Some v) as Hins.
    { destruct description as [text| |]; try done.
      cbn [privacy_text]. by destruct (nonblank text). }
    destruct (decide (key = k)) as [->|Hne].
    + rewrite lookup_insert_eq in Hins. inv_ok Hins.
      right. exists label, description. split; [done|]. split; [apply list_elem_of_here | done].
    + rewrite lookup_insert_ne in Hins by done. by left.
  - right. exists label, d. split; [done|]. split; [by apply list_elem_of_further | done].
Qed.

Lemma analyze_privacy_cases w z :
  privacy (analyze_ipa_file w z) = ∅
  ∨ ∃ app_folder items,
      picked_bundle z app_folder
      ∧ app_folder +:+ "Info.plist" ∈ namelist z
      ∧ read_plist z (app_folder +:+ "Info.plist") = Parsed (PDict items)
      ∧ privacy (analyze_ipa_file w z) = privacy_of_items items ∅.
Proof.
  unfold analyze_ipa_file, picked_bundle.
  destruct (zip_opens z); cbn [negb]; [| by left].
  destruct (filter _ (namelist z)) as [|app_folder others]; [by left|].
  destruct (bool_decide (app_folder +:+ "Info.plist" ∈ namelist z)) eqn:Hlisted.
  - apply bool_decide_eq_true in Hlisted.
    destruct (read_plist z (app_folder +:+ "Info.plist")) as [| |[text|items|]] eqn:Hread.
    1: by left.
    3: { right. exists app_folder, items. split; [by exists others|].
         split; [done|]. split; [done|].
         destruct (bundle_extracts z); cbn [negb]; [| done].
         by destruct (tempdir_removed z). }
    all: left; destruct (bundle_extracts z); cbn [negb]; [| done];
      by destruct (tempdir_removed z).
  - left. destruct (bundle_extracts z); cbn [negb]; [| done].
    by destruct (tempdir_removed z).
Qed.

(** X14: every privacy entry the inspection of an archive reports has
    a key of the static permission dictionary that is also a key of the
    Info.plist of the bundle the inspection picks, the first entry of the
    archive that starts with "Payload/" and ends with ".app/"; its text is
    that plist's own description of the key when that is a string with
    more than white space in it, the dictionary's label otherwise, and it
    is never blank. *)
Theorem reported_privacy_entries w z k v :
  privacy (analyze_ipa_file w z) !! k = Some v →
  ∃ label app_folder items description,
    permission_mappings !! k = Some label
    ∧ picked_bundle z app_folder
    ∧ app_folder +:+ "Info.plist" ∈ namelist z
    ∧ read_plist z (app_folder +:+ "Info.plist") = Parsed (PDict items)
    ∧ (k, description) ∈ items
    ∧ v = privacy_text label description
    ∧ nonblank v = true.
Proof.
  intros H.
  destruct (analyze_privacy_cases w z)
    as [Hempty | (app_folder & items & Hpicked & Hl & Hr & Hp)].
  { rewrite Hempty in H. by rewrite lookup_empty in H. }
  rewrite Hp in H.
  destruct (privacy_of_items_lookup _ _ _ _ H) as [Hempty | (label & d & Hlabel & Hin & ->)].
  { by rewrite lookup_empty in Hempty. }
  exists label, app_folder, items, d. repeat split; try done.
  by eapply privacy_text_nonblank.
Qed.

Lemma reported_privacy_entries_witness :
  ∃ label app_folder,
    permission_mappings !! "NSCameraUsageDescription" = Some label
    ∧ picked_bundle signed_ipa app_folder
    ∧ nonblank "Camera access" = true.
Proof.
  destruct (reported_privacy_entries signed_world signed_ipa
              "NSCameraUsageDescription" "Camera access")
    as (label & app_folder & _ & _ & Hl & Hpicked & _ & _ & _ & _ & Hnb); [evaluate|].
  exists label, app_folder. split; [exact Hl|]. split; [exact Hpicked | exact Hnb].
Defined.

(** ** What each tool contributes *)

Lemma tool_fails_no_plist w run :
  tool_fails w run → tool_plist w run = None.
Proof.
  destruct run as [| |returncode stdout]; try done. cbn [tool_fails tool_plist].
  intros [Hrc | [-> | Hparse]].
  - by apply Z.eqb_neq in Hrc as ->.
  - by rewrite andb_false_r.
  - by destruct ((returncode =? 0)%Z && truthy (JStr stdout)).
Qed.

(** X15: when the inspection of an archive runs to its end, the
    entitlements are the sorted set of what the code-signing inspector
    reports, together with what the profile decoder reports if the archive
    lists a provisioning profile that is found on disk; a tool that times
    out, cannot be run, exits with a non-zero code, prints nothing or
    prints what [plistlib] cannot parse contributes nothing and stops
    nothing. *)
Theorem entitlements_of_completed_inspection w z :
  inspection_completes z = true →
  entitlements (analyze_ipa_file w z)
  = sorted_set (extract_entitlements_with_codesign w (codesign_run z)
                ++ if profile_consulted z
                   then extract_mobileprovision_with_security w (security_run z)
                   else [])
  ∧ (tool_fails w (codesign_run z) →
     extract_entitlements_with_codesign w (codesign_run z) = [])
  ∧ (tool_fails w (security_run z) →
     extract_mobileprovision_with_security w (security_run z) = []).
Proof.
  intros H. split; [| split].
  - unfold inspection_completes in H. unfold analyze_ipa_file, profile_consulted.
    apply andb_true_iff in H as [H Hremoved].
    apply andb_true_iff in H as [H Hextract].
    apply andb_true_iff in H as [Hopen Hplist].
    rewrite Hopen, Hextract, Hremoved. cbn [negb].
    destruct (filter _ (namelist z)) as [|app_folder others]; [discriminate|].
    assert (∀ found merged merged',
              (∀ e, e ∈ merged ↔ e ∈ merged') →
              entitlements {| entitlements := sorted_set merged; privacy := found |}
              = sorted_set merged') as Hsame.
    { intros found merged merged' Hm. cbn [entitlements]. by apply sorted_set_ext. }
    destruct (bool_decide (app_folder +:+ "Info.plist" ∈ namelist z)).
    + destruct (read_plist z (app_folder +:+ "Info.plist")) as [| |[]]; try discriminate;
        apply Hsame; intros e;
        destruct (filter (λ f, contains "embedded.mobileprovision" f = true) (namelist z));
        try destruct (provision_on_disk z);
        rewrite ?add_new_elem, !elem_of_app, ?elem_of_nil; tauto.
    + apply Hsame; intros e;
        destruct (filter (λ f, contains "embedded.mobileprovision" f = true) (namelist z));
        try destruct (provision_on_disk z);
        rewrite ?add_new_elem, !elem_of_app, ?elem_of_nil; tauto.
  - intros Hf. unfold extract_entitlements_with_codesign.
    by rewrite (tool_fails_no_plist _ _ Hf).
  - intros Hf. unfold extract_mobileprovision_with_security.
    by rewrite (tool_fails_no_plist _ _ Hf).
Qed.

Lemma entitlements_of_completed_inspection_witness :
  entitlements (analyze_ipa_file signed_world unprovisioned_ipa)
  = ["get-task-allow"; "keychain-access-groups"].
Proof.
  destruct (entitlements_of_completed_inspection signed_world unprovisioned_ipa)
    as (Hfound & _ & _); [evaluate|].
  rewrite Hfound. evaluate.
Defined.


(** ** When convert_repository writes a document *)

Lemma convert_loop_non_object t analyze i apps st :
  forallb is_obj apps = false →
  convert_loop t analyze i apps st = Raise AttributeError.
Proof.
  revert i st. induction apps as [|app rest IH]; intros i st H; [discriminate|].
  cbn [convert_loop]. cbn [forallb] in H.
  destruct app as [| | | | | |record]; try done.
  rewrite process_app_obj. cbn [mbind result_bind]. by apply IH.
Qed.

(** X17: [convert_repository] writes a document exactly when the input
    is an object whose [apps] (an empty list when absent) can be iterated
    and holds only objects.  An input that is not an object raises
    [AttributeError]; an [apps] that is null, a number or a boolean raises
    [TypeError]; and an entry of [apps] that is not an object raises
    [AttributeError] and leaves no document, wherever it stands in the
    list. *)
Theorem convert_repository_domain (t : timeline) data output_file analyze :
  match data with
  | JObj d =>
      match py_iter (py_get_default d "apps" (JArr [])) with
      | Ok apps =>
          if forallb is_obj apps
          then ∃ c, convert_repository t data output_file analyze = Ok c
          else convert_repository t data output_file analyze = Raise AttributeError
      | Raise e =>
          e = TypeError
          ∧ convert_repository t data output_file analyze = Raise TypeError
      end
  | _ => convert_repository t data output_file analyze = Raise AttributeError
  end.
Proof.
  destruct data as [| | | | | |d]; try done.
  destruct (py_iter (py_get_default d "apps" (JArr []))) as [apps|e] eqn:Hiter.
  - destruct (forallb is_obj apps) eqn:Hobj.
    + eexists. by apply convert_repository_eq.
    + unfold convert_repository. rewrite Hiter. cbn [mbind result_bind].
      by rewrite convert_loop_non_object.
  - assert (e = TypeError) as ->.
    { destruct (py_get_default d "apps" (JArr [])); simpl in Hiter; congruence. }
    split; [done|]. unfold convert_repository. by rewrite Hiter.
Qed.

(** X18: a record whose conversion raises does not stop the run: the
    document is still written, the record contributes nothing to [apps]
    and adds one to the skip count. *)
Theorem raising_record_skipped (t : timeline) analyze d before record after output_file e :
  d !! "apps" = Some (JArr (before ++ JObj record :: after)) →
  forallb is_obj (before ++ after) = true →
  convert_app_to_altstore_format (t (S (length before))) record analyze = Raise e →
  ∃ c,
    convert_repository t (JObj d) output_file analyze = Ok c
    ∧ output c !! "apps"
      = Some (JArr (converted_from t analyze 1 before
                    ++ converted_from t analyze (2 + length before) after))
    ∧ skipped_apps c
      = skipped_from t analyze 1 before + 1
        + skipped_from t analyze (2 + length before) after.
Proof.
  intros Happs Hobj Hraise.
  rewrite forallb_app in Hobj. apply andb_true_iff in Hobj as [Hbefore Hafter].
  eexists. split.
  { apply (convert_repository_eq t d output_file analyze (before ++ JObj record :: after)).
    - unfold py_get_default. by rewrite Happs.
    - rewrite forallb_app. cbn [forallb is_obj]. by rewrite Hbefore, Hafter. }
  cbn [output skipped_apps].
  rewrite updated_document_apps, converted_from_app, skipped_from_app.
  cbn [converted_from skipped_from converted_record].
  replace (1 + length before) with (S (length before)) by lia.
  rewrite Hraise.
  replace (S (S (length before))) with (2 + length before) by lia.
  split; [done | lia].
Qed.

Lemma raising_record_skipped_witness :
  ∃ c,
    convert_repository (λ _, example_world)
      (JObj (<["apps" := JArr ([JObj foo_app] ++ JObj numeric_name_app :: [])]> ∅))
      "out.json" false = Ok c
    ∧ output c !! "apps" = Some (JArr [JObj (foo_converted example_world)])
    ∧ skipped_apps c = 1.
Proof.
  destruct (raising_record_skipped (λ _, example_world) false
              (<["apps" := JArr ([JObj foo_app] ++ JObj numeric_name_app :: [])]> ∅)
              [JObj foo_app] numeric_name_app [] "out.json" AttributeError)
    as (c & Hc & Happs & Hskipped); [evaluate | evaluate | evaluate |].
  exists c. split; [exact Hc|]. rewrite Happs, Hskipped. split; evaluate.
Defined.

(** ** batch_convert *)

Lemma ends_with_spec (suf s : string) :
  ends_with suf s = true ↔ ∃ pre, s = pre +:+ suf.
Proof.
  induction s as [|c s IH].
  - cbn [ends_with]. rewrite orb_false_r, String.eqb_eq. split.
    + intros ->. by exists "".
    + intros [pre H]. destruct pre; [done | discriminate].
  - cbn [ends_with]. rewrite orb_true_iff, String.eqb_eq, IH. split.
    + intros [-> | [pre ->]]; [by exists "" | by exists (String c pre)].
    + intros [[|c' pre] H].
      * left. by rewrite append_nil_l in H.
      * right. rewrite append_cons in H. exists pre. congruence.
Qed.

Lemma contains_slash_app (a b : string) :
  contains "/" (a +:+ b) = contains "/" a || contains "/" b.
Proof.
  induction a as [|c a IH]; [by destruct b|].
  by rewrite append_cons, !contains_slash_cons, IH, orb_assoc.
Qed.

Lemma basename_plain (f : string) : contains "/" f = false → basename f = f.
Proof.
  destruct f as [|c f]; [done|]. rewrite contains_slash_cons.
  intros [Hc Hf]%orb_false_iff. cbn [basename]. by rewrite Hf, Hc.
Qed.

Lemma basename_after_slash (d f : string) :
  contains "/" f = false → basename (d +:+ "/" +:+ f) = f.
Proof.
  intros Hf. induction d as [|c d IH].
  - rewrite append_nil_l, append_cons, append_nil_l. cbn [basename]. by rewrite Hf.
  - rewrite append_cons. cbn [basename].
    rewrite contains_slash_app, append_cons, contains_slash_cons.
    cbn. by rewrite orb_true_r.
Qed.

Lemma basename_join (d f : string) :
  contains "/" f = false → basename (os_path_join d f) = f.
Proof.
  intros Hf. unfold os_path_join, starts_with.
  destruct (String.prefix "/" f) eqn:Hp.
  { apply prefix_spec in Hp as [post ->].
    rewrite append_cons, contains_slash_cons in Hf. discriminate. }
  destruct d as [|c d]; cbn [truthy negb orb].
  { rewrite append_nil_l. by apply basename_plain. }
  destruct (ends_with "/" (String c d)) eqn:He.
  - apply ends_with_spec in He as [pre ->].
    rewrite str_app_assoc. by apply basename_after_slash.
  - by apply basename_after_slash.
Qed.

(** X19: every document a batch run writes comes from a file of the
    input directory whose name ends in ".json", was loaded from that
    directory and is written to the output directory under "converted_"
    followed by the same name; and when that document had no [sourceURL]
    it gets "https://example.com/converted_" followed by the name. *)
Theorem batch_outputs env input_directory output_directory analyze path c :
  (path, c) ∈ batch_convert env input_directory output_directory analyze →
  ∃ name data,
    name ∈ listdir env
    ∧ ends_with ".json" name = true
    ∧ path = os_path_join output_directory ("converted_" +:+ name)
    ∧ load_json env (os_path_join input_directory name) = Some data
    ∧ convert_repository (timeline_of env (os_path_join input_directory name))
                         data path analyze = Ok c
    ∧ (contains "/" name = false →
       ∀ d, data = JObj d → d !! "sourceURL" = None →
            output c !! "sourceURL"
            = Some (JStr ("https://example.com/" +:+ "converted_" +:+ name))).
Proof.
  unfold batch_convert. rewrite list_elem_of_omap.
  intros (name & Hname & Hsome).
  apply list_elem_of_filter in Hname as [Hjson Hlisted].
  cbv zeta in Hsome.
  destruct (load_json env (os_path_join input_directory name)) as [data|] eqn:Hload;
    [| discriminate].
  destruct (convert_repository _ data _ analyze) as [c'|] eqn:Hc; [| discriminate].
  injection Hsome as <- <-.
  exists name, data. repeat split; try done.
  intros Hslash d -> Hnone.
  destruct (convert_repository_inv _ _ _ _ _ Hc) as (d' & apps & Hd & Hiter & Hobj).
  inv_ok Hd. rewrite (convert_repository_eq _ _ _ _ _ Hiter Hobj) in Hc. inv_ok Hc.
  cbn [output]. rewrite updated_document_sourceURL, Hnone. cbn [default].
  rewrite basename_join; [done|].
  by rewrite contains_slash_app, Hslash.
Qed.

Lemma batch_outputs_witness :
  ∃ c,
    batch_convert example_batch "in" "out" false = [("out/converted_repo.json", c)]
    ∧ output c !! "sourceURL" = Some (JStr "https://example.com/converted_repo.json").
Proof.
  destruct (convert_repository_returns (λ _, example_world) foo_catalog
              "out/converted_repo.json" false) as [c Hc]; [evaluate|].
  exists c.
  assert (batch_convert example_batch "in" "out" false = [("out/converted_repo.json", c)])
    as Hbatch.
  { unfold batch_convert, example_batch. cbn [listdir load_json timeline_of].
    replace (filter (λ f, ends_with ".json" f = true) ["broken.json"; "notes.txt"; "repo.json"])
      with ["broken.json"; "repo.json"] by evaluate.
    cbn [omap list_omap].
    replace (os_path_join "in" "broken.json") with "in/broken.json" by evaluate.
    replace (os_path_join "in" "repo.json") with "in/repo.json" by evaluate.
    replace (os_path_join "out" ("converted_" +:+ "repo.json"))
      with "out/converted_repo.json" by evaluate.
    cbn [String.eqb Ascii.eqb Bool.eqb]. by rewrite Hc. }
  split; [exact Hbatch|].
  destruct (batch_outputs example_batch "in" "out" false "out/converted_repo.json" c)
    as (name & data & _ & _ & Hpath & Hload & _ & Hurl).
  { rewrite Hbatch. apply list_elem_of_here. }
  assert (name = "repo.json") as ->.
  { destruct (String.eqb_spec (os_path_join "in" name) "in/repo.json") as [Heq|Hne].
    - assert (os_path_join "out" ("converted_" +:+ name) = "out/converted_repo.json")
        as Hp by done.
      clear -Heq. unfold os_path_join, starts_with in Heq.
      destruct (String.prefix "/" name) eqn:Hp.
      + subst name. discriminate.
      + cbn in Heq. by injection Heq.
    - cbn [example_batch load_json] in Hload.
      apply String.eqb_neq in Hne. rewrite Hne in Hload. discriminate. }
  cbn [example_batch load_json] in Hload. cbn in Hload. injection Hload as <-.
  rewrite (Hurl eq_refl _ eq_refl); [evaluate | evaluate].
Defined.

(** X20: a file of the input directory that ends in ".json" and loads
    as a catalog is written by the batch run, whatever happens to the
    other files of the directory. *)
Theorem batch_writes_every_catalog env input_directory output_directory analyze name data :
  name ∈ listdir env →
  ends_with ".json" name = true →
  load_json env (os_path_join input_directory name) = Some data →
  catalog_shaped data = true →
  ∃ c,
    (os_path_join output_directory ("converted_" +:+ name), c)
    ∈ batch_convert env input_directory output_directory analyze.
Proof.
  intros Hlisted Hjson Hload Hshape.
  destruct (convert_repository_returns
              (timeline_of env (os_path_join input_directory name)) data
              (os_path_join output_directory ("converted_" +:+ name)) analyze Hshape)
    as [c Hc].
  exists c. unfold batch_convert. apply list_elem_of_omap.
  exists name. split; [by apply list_elem_of_filter|].
  cbv zeta. by rewrite Hload, Hc.
Qed.

Lemma batch_writes_every_catalog_witness :
  ∃ c, ("out/converted_repo.json", c) ∈ batch_convert example_batch "in" "out" true.
Proof.
  destruct (batch_writes_every_catalog example_batch "in" "out" true "repo.json" foo_catalog)
    as [c Hc]; [| evaluate | evaluate | evaluate |].
  { do 2 apply list_elem_of_further. apply list_elem_of_here. }
  exists c. exact Hc.
Defined.

(** ** The synthesized version entry *)

Lemma synthesized_version_lookup app date min_os k :
  synthesized_version app date min_os !! k
  = if String.eqb k "minOSVersion" then Some min_os
    else if String.eqb k "localizedDescription"
         then Some (py_get_default app "localizedDescription" (JStr ""))
    else if String.eqb k "downloadURL"
         then Some (py_get_default app "downloadURL" (JStr ""))
    else if String.eqb k "size" then Some (py_get_default app "size" (JInt 0))
    else if String.eqb k "date" then Some date
    else if String.eqb k "version" then Some (py_get_default app "version" (JStr "1.0"))
    else None.
Proof.
  unfold synthesized_version, dict_literal. cbn [foldl fst snd].
  repeat match goal with
         | |- context [String.eqb k ?key] =>
             destruct (String.eqb_spec k key) as [->|?];
             [ rewrite ?lookup_insert_ne by done; by rewrite lookup_insert_eq |]
         end.
  rewrite !lookup_insert_ne by done. apply lookup_empty.
Qed.

(** X21: for a record without a [versions] field, the one version entry
    of the converted record has the input's [version] ("1.0" when
    absent), [size] (0 when absent) and [downloadURL] ("" when absent),
    the description of the record itself, the date [format_date] makes of
    [versionDate] and a [minOSVersion], and no other key; and that
    [downloadURL] is the URL a permission analysis would fetch. *)
Theorem synthesized_version_fields w app analyze out :
  app !! "versions" = None →
  convert_app_to_altstore_format w app analyze = Ok (Some out) →
  ∃ date version_data,
    format_date w (default (JStr "") (app !! "versionDate")) = Ok date
    ∧ out !! "versions" = Some (JArr [JObj version_data])
    ∧ version_data !! "version" = Some (default (JStr "1.0") (app !! "version"))
    ∧ version_data !! "date" = Some date
    ∧ version_data !! "size" = Some (default (JInt 0) (app !! "size"))
    ∧ version_data !! "downloadURL" = Some (default (JStr "") (app !! "downloadURL"))
    ∧ version_data !! "localizedDescription" = out !! "localizedDescription"
    ∧ is_Some (version_data !! "minOSVersion")
    ∧ (∀ k, is_Some (version_data !! k) →
            k ∈ ["version"; "date"; "size"; "downloadURL"; "localizedDescription";
                 "minOSVersion"])
    ∧ first_download_url out = Some (default (JStr "") (app !! "downloadURL")).
Proof.
  intros Hv H.
  destruct (convert_app_stages _ _ _ _ H) as (a2 & a3 & H2 & H3 & H4).
  destruct (build_versions_synthesized _ _ _ _ Hv H3)
    as (date & name & min_os & Hdate & Hname & Hmin & Hversions).
  assert (out !! "versions" = Some (JArr [JObj (synthesized_version app date min_os)]))
    as Hout by (by rewrite (attach_permissions_frame _ _ _ _ H4)).
  destruct (converted_identity_fields _ _ _ _ H) as (_ & _ & _ & Hl & _ & _).
  exists date, (synthesized_version app date min_os).
  split; [done|]. split; [done|].
  repeat (split; [by rewrite ?Hl, synthesized_version_lookup|]).
  split.
  - intros k. rewrite synthesized_version_lookup.
    repeat match goal with
           | |- context [String.eqb k ?key] =>
               destruct (String.eqb_spec k key) as [->|?];
               [intros _; rewrite !elem_of_cons; tauto|]
           end.
    by intros [].
  - unfold first_download_url. rewrite Hout. cbn [py_first].
    unfold py_get. by rewrite synthesized_version_lookup.
Qed.

Lemma synthesized_version_fields_witness :
  first_download_url (foo_converted example_world) = Some (JStr "https://h/f.ipa").
Proof.
  destruct (synthesized_version_fields example_world foo_app false
              (foo_converted example_world))
    as (date & version_data & _ & _ & _ & _ & _ & _ & _ & _ & _ & Hurl);
    [evaluate | evaluate |].
  rewrite Hurl. evaluate.
Defined.
